(** * LangChain-Chatbot backend: retrieval core and chat orchestration

    A shallow embedding of [backend/loader.py], [backend/chat_persistence.py]
    and the two chat handlers of [backend/app.py], followed by the properties
    of the specification stated against it.

    Conventions.
    - A Python [str] is a Rocq [string], one [ascii] per code point (code
      points below 256); [len] is [String.length].
    - A Python [int] is a [Z].
    - float32 embeddings are vectors of whole numbers.  A squared L2
      distance below [2^24] is the number float32 arithmetic gives; a
      larger one is whatever the library of the process rounds it to.
    - What the process cannot do is part of the model: a search for more
      results than it can allocate raises, and so does reading a file that
      is there and cannot be read.
    - A call that can raise returns a [result]; handlers thread a [World]
      (database, clock, log of calls to the external services). *)

From Stdlib Require Import List ZArith Lia Bool Ascii String.
From Stdlib Require Import Sorted Permutation DecimalString.
Import ListNotations.

Open Scope string_scope.
Open Scope list_scope.
Open Scope Z_scope.

(* ===================================================================== *)
(** ** Python values and exceptions *)
(* ===================================================================== *)

Module Py.

(** Exceptions raised by the modelled code.  [HTTPException] is FastAPI's;
    its detail is either a text or the [{"error": str(e), "trace": tb}]
    dictionary built from a caught exception [e]. *)
Inductive Exc : Type :=
| HTTPException (status_code : Z) (detail : Detail)
| RuntimeError (msg : string)
| AssertionError
| IndexError
| ValueError
| MemoryError
| UnpicklingError
| ServiceError (msg : string)
with Detail : Type :=
| DetailText (s : string)
| DetailError (e : Exc).

Inductive result (A : Type) : Type :=
| Ok (a : A)
| Raise (e : Exc).
Arguments Ok {A} a.
Arguments Raise {A} e.

(** [str.isspace] on the code points below 256: TAB..CR, FS..US, space,
    NEL and NBSP. *)
Definition is_space (c : ascii) : bool :=
  let n := nat_of_ascii c in
  ((9 <=? n) && (n <=? 13))%nat || ((28 <=? n) && (n <=? 32))%nat
  || (n =? 133)%nat || (n =? 160)%nat.

Fixpoint lstrip (s : string) : string :=
  match s with
  | EmptyString => EmptyString
  | String c s' => if is_space c then lstrip s' else s
  end.

Fixpoint rstrip (s : string) : string :=
  match s with
  | EmptyString => EmptyString
  | String c s' =>
      match rstrip s' with
      | EmptyString => if is_space c then EmptyString else String c EmptyString
      | r => String c r
      end
  end.

(** [s.strip()] *)
Definition strip (s : string) : string := rstrip (lstrip s).

(** The characters that Rocq string literals cannot hold: the line feed
    and the double quote. *)
Definition nl : string := String (ascii_of_nat 10) EmptyString.
Definition dquote : string := String (ascii_of_nat 34) EmptyString.

(** Truthiness of a [str]: [if s:] *)
Definition truthy (s : string) : bool :=
  match s with EmptyString => false | _ => true end.

(** [sep.join(parts)] *)
Definition join (sep : string) (parts : list string) : string :=
  String.concat sep parts.

(** [s[:n]] for [n >= 0] *)
Definition slice_to (n : nat) (s : string) : string := substring 0 n s.

(** [x or ''] on an optional string. *)
Definition or_empty (x : option string) : string :=
  match x with Some s => s | None => EmptyString end.

(** [str(i)] for an [int], as used by f-strings. *)
Definition str_int (i : Z) : string := NilZero.string_of_int (Z.to_int i).

(** [l[i]] on a Python list: a negative index counts from the end, and an
    index outside [-len(l), len(l)) raises [IndexError]. *)
Definition getitem {A : Type} (l : list A) (i : Z) : result A :=
  let n := Z.of_nat (List.length l) in
  let j := if i <? 0 then n + i else i in
  if (0 <=? j) && (j <? n) then
    match nth_error l (Z.to_nat j) with
    | Some x => Ok x
    | None => Raise IndexError
    end
  else Raise IndexError.

End Py.
Import Py.

(* ===================================================================== *)
(** ** Ordering rows by a key *)
(* ===================================================================== *)

(** Both outside engines the backend relies on hand back rows in key
    order: faiss by distance, the database by timestamp.  Their ordering is
    modelled by one insertion sort, ascending in an integer key. *)
Module Ordering.
Section SortBy.
Context {A : Type} (key : A -> Z).

Fixpoint insert_by (x : A) (l : list A) : list A :=
  match l with
  | [] => [x]
  | y :: l' => if key x <=? key y then x :: l else y :: insert_by x l'
  end.

Definition sort_by (l : list A) : list A := fold_right insert_by [] l.

(** The list is ascending in the key. *)
Definition ascending : list A -> Prop :=
  StronglySorted (fun a b => key a <= key b).
End SortBy.
End Ordering.
Import Ordering.

(* ===================================================================== *)
(** ** backend/loader.py *)
(* ===================================================================== *)

Module Loader.

(** An embedding vector: a row of float32 numbers, as it stands after
    [.astype("float32")].  The model covers rows whose components are whole
    numbers that float32 holds, and gives each component by its value.  The
    embedding model is the function it computes ([model.encode] of one
    text). *)
Definition Vec : Type := list Z.
Definition Encoder : Type := string -> Vec.

(** Squared Euclidean distance, the metric of [faiss.IndexFlatL2], as a
    number. *)
Definition l2_sqr (x y : Vec) : Z :=
  fold_right Z.add 0 (map (fun p => (fst p - snd p) * (fst p - snd p)) (combine x y)).

(** The faiss and numpy libraries as they run in the serving process
    ([import faiss], [import numpy] at the head of the module).  faiss
    computes distances in float32, in an order of operations that is its
    own: [rounded] is the distance it reports where rounding plays a part.
    A search for [k] results allocates memory in proportion to [k], the
    two result arrays of [k] entries to begin with: [k_max] is the largest
    [k] for which the process gets that memory. *)
Record Faiss : Type := {
  rounded : Vec -> Vec -> Z;
  k_max : positive
}.

(** The squared L2 distance faiss reports for one query row, which it
    computes as the sum of the squared differences.  Below [2^24] every
    difference, square and partial sum is an integer that float32 holds
    exactly, so the result is the exact distance in whatever order it is
    computed; from [2^24] on the result is rounded (an overflow is a value
    above [FLT_MAX]), and rounding never takes a sum of squares below
    [2^24]. *)
Definition fvec_L2sqr (faiss : Faiss) (x y : Vec) : Z :=
  if l2_sqr x y <? 2 ^ 24 then l2_sqr x y
  else Z.max (2 ^ 24) (rounded faiss x y).

(** The largest [k] a search can be asked for: the memory must be there,
    and numpy refuses an int64 array of [2^60] entries or more on any
    machine. *)
Definition results_limit (faiss : Faiss) : Z :=
  Z.min (Z.pos (k_max faiss)) (2 ^ 60 - 1).

(** [faiss.IndexFlatL2]: the dimension and the stored vectors, in the order
    they were added (the label of a vector is its position), held by the
    library of the process. *)
Record IndexFlatL2 : Type := {
  d : nat;
  xb : list Vec;
  lib : Faiss
}.

Definition ntotal (index : IndexFlatL2) : Z := Z.of_nat (List.length (xb index)).

(** The largest float32, the distance faiss reports for a missing result. *)
Definition FLT_MAX : Z := 340282346638528859811704183484516925440.

(** (distance, label) pairs in ascending distance; of two pairs at the
    same distance the one with the lower label comes first. *)
Definition sort_by_distance (l : list (Z * Z)) : list (Z * Z) :=
  sort_by fst l.

(** Labels [start, start+1, ...] for [n] stored vectors. *)
Fixpoint labels_from (start : Z) (n : nat) : list Z :=
  match n with
  | O => []
  | S n' => start :: labels_from (start + 1) n'
  end.

(** All stored vectors ranked by the distance faiss reports between them
    and the query, nearest first (equal distances: lowest label first). *)
Definition ranked (index : IndexFlatL2) (q : Vec) : list (Z * Z) :=
  sort_by_distance
    (combine (map (fvec_L2sqr (lib index) q) (xb index))
             (labels_from 0 (List.length (xb index)))).

(** [index.search(np.array([q]), k)] for one query row: the rows [D[0]] and
    [I[0]].  faiss is a library outside the repository; this is its
    documented contract.  The wrapper asserts the dimension and [k > 0],
    then allocates the two result arrays with [np.empty((1, k))]: numpy
    raises [ValueError] for a size it cannot express and [MemoryError] for
    one the process does not get.  Both rows have exactly [k] entries,
    nearest first, and when fewer than [k] vectors are stored the remaining
    entries are distance [FLT_MAX] and label [-1]. *)
Definition search (index : IndexFlatL2) (q : Vec) (k : Z) : result (list Z * list Z) :=
  if negb (Nat.eqb (List.length q) (d index)) then Raise AssertionError
  else if negb (0 <? k) then Raise AssertionError
  else if 2 ^ 61 <=? k then Raise ValueError
  else if Z.pos (k_max (lib index)) <? k then Raise MemoryError
  else if 2 ^ 60 <=? k then Raise ValueError
  else
    let kn := Z.to_nat k in
    let found := firstn kn (ranked index q) in
    let pad := (kn - List.length found)%nat in
    Ok (map fst found ++ repeat FLT_MAX pad, map snd found ++ repeat (-1) pad).

(** The loop of [similarity_search]:
<<
    for idx in I[0]:
        if idx < len(pages):
            results.append(pages[idx])
>> *)
Fixpoint collect (pages : list string) (I0 : list Z) (results : list string)
  : result (list string) :=
  match I0 with
  | [] => Ok results
  | idx :: rest =>
      if idx <? Z.of_nat (List.length pages) then
        match getitem pages idx with
        | Ok page => collect pages rest (results ++ [page])
        | Raise e => Raise e
        end
      else collect pages rest results
  end.

Definition similarity_search (index : IndexFlatL2) (pages : list string)
    (model : Encoder) (query : string) (top_k : Z) : result (list string) :=
  let q_emb := model query in
  match search index q_emb top_k with
  | Raise e => Raise e
  | Ok (_, I0) => collect pages I0 []
  end.

(** *** Building and loading the persisted index *)

(** A file on disk: absent, present with content that cannot be read back
    (reading it raises [e]), or present and readable. *)
Inductive Artifact (A : Type) : Type :=
| Absent
| Unreadable (e : Exc)
| Stored (content : A).
Arguments Absent {A}.
Arguments Unreadable {A} e.
Arguments Stored {A} content.

(** The files the loader touches: the two persisted artifacts and the PDF,
    given by what [extract_text()] returns for each of its pages ([None]
    for a page without text; a PDF that cannot be opened is [None]).  A
    readable index file holds the dimension and the vectors of an
    [IndexFlatL2], a readable passage file a pickled list of texts. *)
Record Files : Type := {
  faiss_index_faiss : Artifact (nat * list Vec);   (* INDEX_FAISS_PATH *)
  texts_pkl : Artifact (list string);              (* INDEX_TEXTS_PATH *)
  pdf : option (list (option string))              (* pdf_path *)
}.

Definition read_pdf_pages (fs : Files) : result (list string) :=
  match pdf fs with
  | None => Raise (ServiceError "PdfReader: cannot open file")
  | Some raw =>
      Ok (filter truthy (map (fun p => strip (or_empty p)) raw))
  end.

(** [index = faiss.IndexFlatL2(dim); index.add(embeddings)] with
    [dim = embeddings.shape[1]]. *)
Definition build_index (faiss : Faiss) (embeddings : list Vec) : IndexFlatL2 :=
  {| d := List.length (hd [] embeddings); xb := embeddings; lib := faiss |}.

(** [faiss.write_index] and [faiss.read_index]. *)
Definition write_index (index : IndexFlatL2) : nat * list Vec :=
  (d index, xb index).

Definition read_index (faiss : Faiss) (content : nat * list Vec) : IndexFlatL2 :=
  {| d := fst content; xb := snd content; lib := faiss |}.

(** [build_index_from_pdf(pdf_path)].  [hub] is what
    [SentenceTransformer("sentence-transformers/all-MiniLM-L6-v2")] gives
    in the process: the encoder, or the exception raised when the model
    cannot be loaded. *)
Definition build_index_from_pdf (faiss : Faiss) (hub : result Encoder) (fs : Files)
  : result (IndexFlatL2 * list string * Encoder) * Files :=
  match read_pdf_pages fs with
  | Raise e => (Raise e, fs)
  | Ok pages =>
      match pages with
      | [] => (Raise (RuntimeError
                 "No text extracted from PDF. Check PDF path or contents."), fs)
      | _ =>
          match hub with
          | Raise e => (Raise e, fs)
          | Ok model =>
              let embeddings := map model pages in
              let index := build_index faiss embeddings in
              (Ok (index, pages, model),
               {| faiss_index_faiss := Stored (write_index index);
                  texts_pkl := Stored pages;
                  pdf := pdf fs |})
          end
      end
  end.

(** [load_index()]: [Ok None] stands for the triple [(None, None, None)].
    When both files exist they are read, the index first, and the model is
    loaded last: a file that cannot be read makes [faiss.read_index] or
    [pickle.load] raise, and so does a model that cannot be loaded. *)
Definition load_index (faiss : Faiss) (hub : result Encoder) (fs : Files)
  : result (option (IndexFlatL2 * list string * Encoder)) :=
  match faiss_index_faiss fs, texts_pkl fs with
  | Absent, _ => Ok None
  | _, Absent => Ok None
  | Unreadable e, _ => Raise e
  | Stored _, Unreadable e => Raise e
  | Stored content, Stored pages =>
      match hub with
      | Raise e => Raise e
      | Ok model => Ok (Some (read_index faiss content, pages, model))
      end
  end.

Definition build_or_load_index (faiss : Faiss) (hub : result Encoder) (fs : Files)
  : result (IndexFlatL2 * list string * Encoder) * Files :=
  match load_index faiss hub fs with
  | Raise e => (Raise e, fs)
  | Ok (Some (index, pages, model)) => (Ok (index, pages, model), fs)
  | Ok None => build_index_from_pdf faiss hub fs
  end.

End Loader.

(* ===================================================================== *)
(** ** backend/chat_persistence.py *)
(* ===================================================================== *)

Module ChatPersistence.

(** Modelled from the spec: [database.py] (the ORM classes [User],
    [ChatSession], [ChatMessage]) is not among the sources.  The records
    carry the columns the handlers read and the spec's data model lists. *)
Record User : Type := {
  u_id : Z;
  u_email : string
}.

(** Modelled from the spec: a conversation session
    [{id, owner, title, created_at, updated_at}]. *)
Record ChatSession : Type := {
  s_id : Z;
  s_user_id : Z;
  s_title : string;
  s_created_at : Z;
  s_updated_at : Z
}.

(** Modelled from the spec: a message
    [{session_id, role, content, timestamp}], with its primary key. *)
Record ChatMessage : Type := {
  m_id : Z;
  m_session_id : Z;
  m_role : string;
  m_content : string;
  m_timestamp : Z
}.

(** The two tables, rows in insertion order. *)
Record DB : Type := {
  chat_sessions : list ChatSession;
  chat_messages : list ChatMessage
}.

(** A call to a service outside the backend. *)
Inductive Call : Type :=
| CallSearch (query : string) (top_k : Z)
| CallGenerate (prompt : string)
| CallGenerateStream (prompt : string).

(** What a request handler can read and change: the database, the clock
    that stamps new rows, and the log of calls made so far.  Nothing ties
    the clock to the timestamps already stored: a world whose clock shows
    the timestamp of a stored row is a database about to stamp two rows
    alike. *)
Record World : Type := {
  db : DB;
  now : Z;
  calls : list Call
}.

(** Handlers are state-passing computations that may raise. *)
Definition M (A : Type) : Type := World -> result A * World.

Definition ret {A : Type} (a : A) : M A := fun w => (Ok a, w).

Definition raise {A : Type} (e : Exc) : M A := fun w => (Raise e, w).

Definition bind {A B : Type} (m : M A) (f : A -> M B) : M B :=
  fun w =>
    match m w with
    | (Ok a, w') => f a w'
    | (Raise e, w') => (Raise e, w')
    end.

(** [try: body / except Exception as e: handler e] *)
Definition try_except {A : Type} (body : M A) (handler : Exc -> M A) : M A :=
  fun w =>
    match body w with
    | (Ok a, w') => (Ok a, w')
    | (Raise e, w') => handler e w'
    end.

Declare Scope py_scope.
Delimit Scope py_scope with py.
Notation "x <- m ;; k" := (bind m (fun x => k))
  (at level 61, m at next level, right associativity) : py_scope.
Notation "m ;;; k" := (bind m (fun _ => k))
  (at level 61, right associativity) : py_scope.
Open Scope py_scope.

(** Modelled from the spec: the primary key the database gives a new row,
    one more than the largest key of the table (so at least 1). *)
Definition fresh_id (ids : list Z) : Z := 1 + fold_right Z.max 0 ids.

(** [db.add(row); db.commit(); db.refresh(row)] stamps the row with the
    clock, which then moves on. *)
Definition create_session (user : User) (title : string) : M ChatSession :=
  fun w =>
    let session :=
      {| s_id := fresh_id (map s_id (chat_sessions (db w)));
         s_user_id := u_id user;
         s_title := title;
         s_created_at := now w;
         s_updated_at := now w |} in
    (Ok session,
     {| db := {| chat_sessions := chat_sessions (db w) ++ [session];
                 chat_messages := chat_messages (db w) |};
        now := now w + 1;
        calls := calls w |}).

Definition save_message (session_id : Z) (role content : string) : M ChatMessage :=
  fun w =>
    let message :=
      {| m_id := fresh_id (map m_id (chat_messages (db w)));
         m_session_id := session_id;
         m_role := role;
         m_content := content;
         m_timestamp := now w |} in
    (Ok message,
     {| db := {| chat_sessions := chat_sessions (db w);
                 chat_messages := chat_messages (db w) ++ [message] |};
        now := now w + 1;
        calls := calls w |}).

(** [db.query(ChatSession).filter(id == session_id, user_id == uid).first()] *)
Definition query_owned_session (session_id uid : Z) : M (option ChatSession) :=
  fun w =>
    (Ok (find (fun s => (s_id s =? session_id) && (s_user_id s =? uid))
              (chat_sessions (db w))), w).

(** [.order_by(ChatMessage.timestamp.desc())]: newest first; rows with
    the same timestamp come in insertion order. *)
Definition order_by_timestamp_desc (l : list ChatMessage) : list ChatMessage :=
  sort_by (fun m => - m_timestamp m) l.

Definition format_messages_for_llm (messages : list ChatMessage) : string :=
  let formatted :=
    map (fun msg =>
           let role := if (m_role msg =? "user")%string then "User" else "Assistant" in
           (role ++ ": " ++ m_content msg)%string) messages in
  join (nl ++ nl)%string formatted.

(** The rows [get_recent_context] formats: the [limit] newest messages of
    the session, put back in chronological order. *)
Definition recent_messages (session_id : Z) (limit : Z) (w : World) : list ChatMessage :=
  let messages :=
    firstn (Z.to_nat limit)
      (order_by_timestamp_desc
         (filter (fun m => m_session_id m =? session_id) (chat_messages (db w)))) in
  rev messages.

Definition get_recent_context (session_id : Z) (limit : Z) : M string :=
  fun w => (Ok (format_messages_for_llm (recent_messages session_id limit w)), w).

(** [get_session_messages]: the messages of a session,
    [.order_by(ChatMessage.timestamp)], oldest first. *)
Definition get_session_messages (session_id : Z) : M (list ChatMessage) :=
  fun w =>
    (Ok (sort_by m_timestamp
           (filter (fun m => m_session_id m =? session_id) (chat_messages (db w)))),
     w).

(** [get_user_sessions]: the sessions of a user,
    [.order_by(ChatSession.updated_at.desc())]. *)
Definition get_user_sessions (user_id : Z) : M (list ChatSession) :=
  fun w =>
    (Ok (sort_by (fun s => - s_updated_at s)
           (filter (fun s => s_user_id s =? user_id) (chat_sessions (db w)))),
     w).

(** The row [.first()] returns is the first one that passes the filter;
    changing or deleting that object changes or deletes that row. *)
Fixpoint update_first {A : Type} (p : A -> bool) (f : A -> A) (l : list A) : list A :=
  match l with
  | [] => []
  | x :: l' => if p x then f x :: l' else x :: update_first p f l'
  end.

Fixpoint remove_first {A : Type} (p : A -> bool) (l : list A) : list A :=
  match l with
  | [] => []
  | x :: l' => if p x then l' else x :: remove_first p l'
  end.

(** [update_session_title]: [session.updated_at = datetime.utcnow()] reads
    the clock; nothing is committed when no session has the id. *)
Definition update_session_title (session_id : Z) (title : string) : M unit :=
  fun w =>
    let hit := fun s => s_id s =? session_id in
    match find hit (chat_sessions (db w)) with
    | Some _ =>
        (Ok tt,
         {| db := {| chat_sessions :=
                       update_first hit
                         (fun s => {| s_id := s_id s;
                                      s_user_id := s_user_id s;
                                      s_title := title;
                                      s_created_at := s_created_at s;
                                      s_updated_at := now w |})
                         (chat_sessions (db w));
                     chat_messages := chat_messages (db w) |};
            now := now w + 1;
            calls := calls w |})
    | None => (Ok tt, w)
    end.

(** [delete_session]: only a session of that user is deleted.  What the
    database then does with the messages of the session is set in
    [database.py], which is not among the sources: it is the parameter
    [on_delete], from the deleted id and the messages table to the new
    messages table. *)
Definition delete_session (on_delete : Z -> list ChatMessage -> list ChatMessage)
    (session_id user_id : Z) : M bool :=
  fun w =>
    let hit := fun s => (s_id s =? session_id) && (s_user_id s =? user_id) in
    match find hit (chat_sessions (db w)) with
    | Some _ =>
        (Ok true,
         {| db := {| chat_sessions := remove_first hit (chat_sessions (db w));
                     chat_messages := on_delete session_id (chat_messages (db w)) |};
            now := now w + 1;
            calls := calls w |})
    | None => (Ok false, w)
    end.

End ChatPersistence.

(* ===================================================================== *)
(** ** backend/app.py: the chat handlers *)
(* ===================================================================== *)

Module App.
Import Loader ChatPersistence.

(** The module-level state of [app.py] set at startup, and the Ollama
    client: [ollama_generate] is [ollama.generate(model, prompt)] reduced
    to the ["response"] entry of the returned dictionary,
    [ollama_generate_stream] the chunks of [ollama.generate(..., stream=True)]
    (each reduced to its ["response"] entry) and, when the stream fails
    after them, the text of the exception. *)
Record Globals : Type := {
  index : IndexFlatL2;
  pages : list string;
  embed_model : Encoder;
  ollama_generate : string -> result (option string);
  ollama_generate_stream : string -> list (option string) * option string
}.

Record ChatRequest : Type := {
  user : string;
  top_k : Z;
  session_id : option Z
}.

(** The JSON bodies [chat] returns: [{"reply"}] alone, or
    [{"reply", "sources_used", "session_id"}]. *)
Inductive ChatResponse : Type :=
| ReplyOnly (reply : string)
| ReplyFull (reply : string) (sources_used : list string) (session_id : Z).

Definition log (c : Call) : M unit :=
  fun w => (Ok tt, {| db := db w; now := now w; calls := calls w ++ [c] |}).

Definition lift {A : Type} (r : result A) : M A := fun w => (r, w).

Definition call_similarity_search (g : Globals) (query : string) (k : Z)
  : M (list string) :=
  log (CallSearch query k) ;;;
  lift (similarity_search (index g) (pages g) (embed_model g) query k).

Definition call_generate (g : Globals) (prompt : string) : M (option string) :=
  log (CallGenerate prompt) ;;;
  lift (ollama_generate g prompt).

Definition format_context (results : list string) : string :=
  join (nl ++ nl ++ "---" ++ nl ++ nl)%string results.

(** [if not session_id]: [None] and [0] are falsy. *)
Definition no_session_id (sid : option Z) : bool :=
  match sid with
  | None => true
  | Some i => i =? 0
  end.

Definition nonempty {A : Type} (l : list A) : bool :=
  match l with [] => false | _ => true end.

Definition SYSTEM_PARTS : list string :=
  [ "You are an assistant that answers customer questions strictly using the provided company/document context and recent conversation history.";
    ("If the answer cannot be found in the context, reply exactly: " ++ dquote
       ++ "Sorry, I don't have that information." ++ dquote)%string;
    ("Be concise and helpful." ++ nl)%string ].

(** The prompt both handlers assemble from the recent conversation, the
    joined passages and the question ([chat] lines 286-303, [chat_stream]
    lines 372-385). *)
Definition build_prompt (recent_context context_text user_msg : string) : string :=
  let prompt_parts := SYSTEM_PARTS in
  let prompt_parts :=
    if truthy recent_context
    then prompt_parts ++ [("RECENT CONVERSATION:" ++ nl ++ recent_context ++ nl)%string]
    else prompt_parts in
  let prompt_parts :=
    if truthy context_text
    then prompt_parts ++ [("DOCUMENT CONTEXT:" ++ nl ++ context_text ++ nl)%string]
    else prompt_parts in
  let prompt_parts :=
    prompt_parts ++ [("Question: " ++ user_msg ++ nl)%string; "Answer:"] in
  join nl prompt_parts.

(** Get or create the chat session: the id the rest of the handler uses.
    [chat] (lines 254-270) and [chat_stream] (lines 352-362) hold the same
    statements. *)
Definition resolve_session (req : ChatRequest) (current_user : User)
    (user_msg : string) : M Z :=
  if no_session_id (session_id req) then
    session <- create_session current_user
                 (if (50 <? String.length user_msg)%nat
                  then (slice_to 50 user_msg ++ "...")%string
                  else user_msg) ;;
    ret (s_id session)
  else
    let sid := match session_id req with Some i => i | None => 0 end in
    session <- query_owned_session sid (u_id current_user) ;;
    match session with
    | None => raise (HTTPException 404 (DetailText "Session not found"))
    | Some _ => ret sid
    end.

(** The body of the [try] block of [chat]. *)
Definition chat_try (g : Globals) (req : ChatRequest) (current_user : User)
  : M ChatResponse :=
  let user_msg := strip (user req) in
  if negb (truthy user_msg) then
    ret (ReplyOnly "Please send a non-empty question.")
  else
    session_id <- resolve_session req current_user user_msg ;;
    save_message session_id "user" user_msg ;;;
    recent_context <- get_recent_context session_id 5 ;;
    results <- call_similarity_search g user_msg (top_k req) ;;
    let context_text := if nonempty results then format_context results
                        else EmptyString in
    let prompt := build_prompt recent_context context_text user_msg in
    answer <- try_except
                (response <- call_generate g prompt ;;
                 ret (strip (or_empty response)))
                (fun e => raise e) ;;
    save_message session_id "assistant" answer ;;;
    if (strip context_text =? EmptyString)%string then
      ret (ReplyFull "Sorry, I don't have that information." [] session_id)
    else
      ret (ReplyFull answer results session_id).

(** [POST /api/chat] *)
Definition chat (g : Globals) (req : ChatRequest) (current_user : User)
  : M ChatResponse :=
  try_except (chat_try g req current_user)
    (fun e => raise (HTTPException 500 (DetailError e))).

(** The generator behind the streaming response, run to its end by the
    server: the events it yields, in order. *)
Definition event_generator (g : Globals) (prompt : string) (session_id : Z)
  : World -> list string * World :=
  fun w =>
    let w1 := snd (log (CallGenerateStream prompt) w) in
    let (chunks, failure) := ollama_generate_stream g prompt in
    let accumulated := filter truthy (map or_empty chunks) in
    let data := map (fun piece => ("data: " ++ piece ++ nl ++ nl)%string) accumulated in
    match failure with
    | Some err =>
        (data ++ [("event: error" ++ nl ++ "data: " ++ err ++ nl ++ nl)%string], w1)
    | None =>
        let final_text := strip (join EmptyString accumulated) in
        let w2 := snd (save_message session_id "assistant" final_text w1) in
        (data ++ [("event: done" ++ nl ++ "data: " ++ str_int session_id
                     ++ nl ++ nl)%string], w2)
    end.

(** [POST /api/chat/stream]: the handler returns the generator. *)
Definition chat_stream (g : Globals) (req : ChatRequest) (current_user : User)
  : M (World -> list string * World) :=
  let user_msg := strip (or_empty (Some (user req))) in
  if negb (truthy user_msg) then
    raise (HTTPException 400 (DetailText "Empty message"))
  else
    session_id <- resolve_session req current_user user_msg ;;
    save_message session_id "user" user_msg ;;;
    results <- call_similarity_search g user_msg (top_k req) ;;
    let context_text := if nonempty results then format_context results
                        else EmptyString in
    recent_context <- get_recent_context session_id 5 ;;
    let prompt := build_prompt recent_context context_text user_msg in
    ret (event_generator g prompt session_id).

(** The streaming endpoint as the client sees it: the error of the handler,
    or the events of the generator once the response has been sent. *)
Definition serve_chat_stream (g : Globals) (req : ChatRequest) (current_user : User)
  : M (list string) :=
  fun w =>
    match chat_stream g req current_user w with
    | (Ok gen, w') => let (events, w'') := gen w' in (Ok events, w'')
    | (Raise e, w') => (Raise e, w')
    end.

(** The text a streaming client assembles from the [data:] events, that is
    the concatenation of the pieces the generator forwarded. *)
Definition streamed_text (g : Globals) (prompt : string) : string :=
  join EmptyString (filter truthy (map or_empty (fst (ollama_generate_stream g prompt)))).

(** *** The session endpoints *)

(** [datetime.isoformat()] is the parameter [isoformat] of the endpoints
    below: the column type is set in [database.py]. *)
Record ChatSessionCreate : Type := {
  title : string
}.

Record ChatSessionResponse : Type := {
  r_id : Z;
  r_title : string;
  r_created_at : string;
  r_updated_at : string
}.

(** One entry of the list [GET /api/chat/sessions/{session_id}/messages]
    returns. *)
Record MessageResponse : Type := {
  r_message_id : Z;
  r_role : string;
  r_content : string;
  r_timestamp : string
}.

Definition session_response (isoformat : Z -> string) (session : ChatSession)
  : ChatSessionResponse :=
  {| r_id := s_id session;
     r_title := s_title session;
     r_created_at := isoformat (s_created_at session);
     r_updated_at := isoformat (s_updated_at session) |}.

(** [POST /api/chat/sessions] *)
Definition create_chat_session (isoformat : Z -> string)
    (session_data : ChatSessionCreate) (current_user : User)
  : M ChatSessionResponse :=
  session <- create_session current_user (title session_data) ;;
  ret (session_response isoformat session).

(** [GET /api/chat/sessions] *)
Definition get_chat_sessions (isoformat : Z -> string) (current_user : User)
  : M (list ChatSessionResponse) :=
  sessions <- get_user_sessions (u_id current_user) ;;
  ret (map (session_response isoformat) sessions).

(** [GET /api/chat/sessions/{session_id}/messages] *)
Definition get_session_messages (isoformat : Z -> string) (session_id : Z)
    (current_user : User) : M (list MessageResponse) :=
  session <- query_owned_session session_id (u_id current_user) ;;
  match session with
  | None => raise (HTTPException 404 (DetailText "Session not found"))
  | Some _ =>
      messages <- ChatPersistence.get_session_messages session_id ;;
      ret (map (fun msg =>
                  {| r_message_id := m_id msg;
                     r_role := m_role msg;
                     r_content := m_content msg;
                     r_timestamp := isoformat (m_timestamp msg) |}) messages)
  end.

(** [DELETE /api/chat/sessions/{session_id}] *)
Definition delete_chat_session (on_delete : Z -> list ChatMessage -> list ChatMessage)
    (session_id : Z) (current_user : User) : M string :=
  success <- delete_session on_delete session_id (u_id current_user) ;;
  if negb success then
    raise (HTTPException 404 (DetailText "Session not found"))
  else ret "Session deleted successfully".

End App.

(* ===================================================================== *)
(** ** Example data *)
(* ===================================================================== *)

Module Fixtures.
Import Loader ChatPersistence App.

(** A one-dimensional embedding: the length of the text. *)
Definition toy_encoder : Encoder := fun s => [Z.of_nat (String.length s)].

(** The two-passage corpus of the specification's example. *)
Definition faq_pages : list string :=
  [ "Returns are accepted within 30 days.";
    "Shipping takes 3-5 business days." ].

(** A process whose library reports exact distances throughout and that
    gets result arrays of up to [2^28] entries. *)
Definition toy_faiss : Faiss :=
  {| rounded := l2_sqr; k_max := 268435456 |}.

(** A process with little memory whose library rounds every large
    distance to the same float. *)
Definition small_faiss : Faiss :=
  {| rounded := fun _ _ => 16793604; k_max := 4096 |}.

Definition faq_index : IndexFlatL2 :=
  build_index toy_faiss (map toy_encoder faq_pages).

(** Artifacts left over from an earlier, three-page document next to a
    passage list that has two entries. *)
Definition stale_index : IndexFlatL2 :=
  {| d := 1; xb := [[3]; [10]; [20]]; lib := toy_faiss |}.

Definition stale_files : Files :=
  {| faiss_index_faiss := Stored (write_index stale_index);
     texts_pkl := Stored faq_pages;
     pdf := Some [Some "Returns are accepted within 30 days."; None;
                  Some "  Shipping takes 3-5 business days.  "] |}.

Definition no_files : Files :=
  {| faiss_index_faiss := Absent;
     texts_pkl := Absent;
     pdf := pdf stale_files |}.

(** The index file was cut short while it was written; the passage list
    is whole. *)
Definition torn_files : Files :=
  {| faiss_index_faiss := Unreadable (RuntimeError "read error");
     texts_pkl := Stored faq_pages;
     pdf := pdf stale_files |}.

(** The index file is whole; the passage list is not a pickle. *)
Definition torn_texts : Files :=
  {| faiss_index_faiss := Stored (write_index stale_index);
     texts_pkl := Unreadable UnpicklingError;
     pdf := pdf stale_files |}.

(** A model that answers every prompt with the same sentence. *)
Definition paris_model (prompt : string) : result (option string) :=
  Ok (Some " Paris is the capital of France. ").

Definition paris_stream (prompt : string) : list (option string) * option string :=
  ([Some "Paris is "; None; Some "the capital."], None).

(** The service over the example corpus. *)
Definition faq_globals : Globals :=
  {| index := faq_index;
     pages := faq_pages;
     embed_model := toy_encoder;
     ollama_generate := paris_model;
     ollama_generate_stream := paris_stream |}.

(** The service started from [stale_files] with a passage list of one
    entry: every label but 0 is past the end of the list. *)
Definition stale_globals : Globals :=
  {| index := stale_index;
     pages := ["abc"];
     embed_model := toy_encoder;
     ollama_generate := paris_model;
     ollama_generate_stream := paris_stream |}.

Definition alice : User := {| u_id := 1; u_email := "alice@example.com" |}.
Definition bob : User := {| u_id := 2; u_email := "bob@example.com" |}.

Definition empty_world : World :=
  {| db := {| chat_sessions := []; chat_messages := [] |};
     now := 100;
     calls := [] |}.

(** Bob owns session 7, which holds one earlier exchange. *)
Definition bob_world : World :=
  {| db := {| chat_sessions :=
                [ {| s_id := 7; s_user_id := 2; s_title := "Shipping";
                     s_created_at := 10; s_updated_at := 10 |} ];
              chat_messages :=
                [ {| m_id := 1; m_session_id := 7; m_role := "user";
                     m_content := "How long does shipping take?";
                     m_timestamp := 11 |};
                  {| m_id := 2; m_session_id := 7; m_role := "assistant";
                     m_content := "3-5 business days.";
                     m_timestamp := 12 |} ] |};
     now := 100;
     calls := [] |}.


(** Session 7 holding five messages saved at the same instant, which is
    the instant the clock shows. *)
Definition crowded_world : World :=
  {| db := {| chat_sessions := chat_sessions (db bob_world);
              chat_messages :=
                map (fun i => {| m_id := i; m_session_id := 7; m_role := "assistant";
                                 m_content := "Noted.";
                                 m_timestamp := 12 |}) [1; 2; 3; 4; 5] |};
     now := 12;
     calls := [] |}.

Definition blank_request : ChatRequest :=
  {| user := "   "; top_k := 3; session_id := None |}.

Definition long_question : string :=
  "What is your return policy for items that were bought on sale?".

Definition long_request : ChatRequest :=
  {| user := long_question; top_k := 1; session_id := None |}.

Definition short_request : ChatRequest :=
  {| user := " Do you ship abroad? "; top_k := 1; session_id := None |}.

Definition foreign_request : ChatRequest :=
  {| user := "What did I ask before?"; top_k := 3; session_id := Some 7 |}.

(** Bob continues his own session. *)
Definition followup_request : ChatRequest :=
  {| user := "And how long do returns take?"; top_k := 1; session_id := Some 7 |}.

(** A question whose nearest stored vector is label 1 of [stale_index]. *)
Definition far_request : ChatRequest :=
  {| user := "0123456789"; top_k := 1; session_id := None |}.

(** Timestamps shown as decimal numbers. *)
Definition iso : Z -> string := str_int.

(** A database that deletes the messages of a deleted session. *)
Definition drop_messages (sid : Z) (messages : list ChatMessage) : list ChatMessage :=
  filter (fun m => negb (m_session_id m =? sid)) messages.

(** An Ollama daemon that is down: the blocking call raises, the stream
    breaks after one piece. *)
Definition broken_globals : Globals :=
  {| index := faq_index;
     pages := faq_pages;
     embed_model := toy_encoder;
     ollama_generate := fun _ => Raise (ServiceError "connection refused");
     ollama_generate_stream := fun _ => ([Some "Par"], Some "connection lost") |}.

Definition zero_k_request : ChatRequest :=
  {| user := "Do you ship abroad?"; top_k := 0; session_id := Some 7 |}.

Definition zero_id_request : ChatRequest :=
  {| user := "Do you ship abroad?"; top_k := 1; session_id := Some 0 |}.

(** A PDF whose pages hold no text, and no artifacts next to it. *)
Definition blank_files : Files :=
  {| faiss_index_faiss := Absent;
     texts_pkl := Absent;
     pdf := Some [None; Some "   "; Some EmptyString] |}.

(** Alice owns sessions 3 and 5, Bob session 7. *)
Definition shared_world : World :=
  {| db := {| chat_sessions :=
                [ {| s_id := 3; s_user_id := 1; s_title := "Returns";
                     s_created_at := 5; s_updated_at := 5 |};
                  {| s_id := 5; s_user_id := 1; s_title := "Invoices";
                     s_created_at := 8; s_updated_at := 8 |};
                  {| s_id := 7; s_user_id := 2; s_title := "Shipping";
                     s_created_at := 10; s_updated_at := 10 |} ];
              chat_messages :=
                [ {| m_id := 1; m_session_id := 3; m_role := "user";
                     m_content := "Can I return a gift?";
                     m_timestamp := 6 |};
                  {| m_id := 2; m_session_id := 7; m_role := "user";
                     m_content := "How long does shipping take?";
                     m_timestamp := 11 |};
                  {| m_id := 3; m_session_id := 3; m_role := "assistant";
                     m_content := "Yes, within 30 days.";
                     m_timestamp := 7 |};
                  {| m_id := 4; m_session_id := 7; m_role := "assistant";
                     m_content := "3-5 business days.";
                     m_timestamp := 12 |} ] |};
     now := 100;
     calls := [] |}.

End Fixtures.

(* ===================================================================== *)
(** ** Specification-side definitions *)
(* ===================================================================== *)

Module Spec.
Import Loader ChatPersistence App.

Fixpoint whitespace_only (s : string) : bool :=
  match s with
  | EmptyString => true
  | String c s' => is_space c && whitespace_only s'
  end.

Definition FALLBACK : string := "Sorry, I don't have that information.".

(** The error both handlers raise for a session the user does not own. *)
Definition NOT_FOUND : Exc := HTTPException 404 (DetailText "Session not found").

(** The passage [pages[idx]] denotes for an index inside
    [-len(pages), len(pages)). *)
Definition page_at (pages : list string) (idx : Z) : string :=
  nth (Z.to_nat (if idx <? 0 then Z.of_nat (List.length pages) + idx else idx))
      pages EmptyString.

(** The row [save_message] adds for the question [q] in world [w]. *)
Definition user_row (sid : Z) (q : string) (w : World) : ChatMessage :=
  {| m_id := fresh_id (map m_id (chat_messages (db w)));
     m_session_id := sid;
     m_role := "user";
     m_content := q;
     m_timestamp := now w |}.

(** How one message is rendered in the recent-conversation block. *)
Definition render (m : ChatMessage) : string :=
  ((if (m_role m =? "user")%string then "User" else "Assistant")
     ++ ": " ++ m_content m)%string.

(** The prompt layout of the specification, block by block. *)
Definition system_instruction : string :=
  ("You are an assistant that answers customer questions strictly using the provided company/document context and recent conversation history."
     ++ nl
     ++ "If the answer cannot be found in the context, reply exactly: "
     ++ dquote ++ FALLBACK ++ dquote ++ nl
     ++ "Be concise and helpful." ++ nl ++ nl)%string.

(** The recent-conversation block: absent when there is no message. *)
Definition conversation_block (recent : list ChatMessage) : string :=
  match recent with
  | [] => EmptyString
  | _ => ("RECENT CONVERSATION:" ++ nl
            ++ join (nl ++ nl) (map render recent) ++ nl ++ nl)%string
  end.

(** The document-context block: absent when the joined passages are the
    empty text. *)
Definition context_block (passages : list string) : string :=
  match join (nl ++ nl ++ "---" ++ nl ++ nl) passages with
  | EmptyString => EmptyString
  | joined => ("DOCUMENT CONTEXT:" ++ nl ++ joined ++ nl ++ nl)%string
  end.

(** System instruction, conversation, context, question, answer cue. *)
Definition spec_prompt (recent : list ChatMessage) (passages : list string)
    (question : string) : string :=
  (system_instruction ++ conversation_block recent ++ context_block passages
     ++ "Question: " ++ question ++ nl ++ nl ++ "Answer:")%string.

(** Every session was last updated before the clock. *)
Definition stamped_sessions (w : World) : Prop :=
  Forall (fun s => s_updated_at s < now w) (chat_sessions (db w)).

(** The user owns a session with that id. *)
Definition owns (u : User) (sid : Z) (w : World) : Prop :=
  exists s, In s (chat_sessions (db w)) /\ s_id s = sid /\ s_user_id s = u_id u.

(** No two sessions share an id (the primary key). *)
Definition unique_session_ids (w : World) : Prop :=
  NoDup (map s_id (chat_sessions (db w))).

(** The embedding model gives every text a vector of the same dimension. *)
Definition fixed_dimension (model : Encoder) : Prop :=
  forall s t, List.length (model s) = List.length (model t).

(** The entry of the messages listing for one stored message. *)
Definition message_response (isoformat : Z -> string) (msg : ChatMessage)
  : MessageResponse :=
  {| r_message_id := m_id msg;
     r_role := m_role msg;
     r_content := m_content msg;
     r_timestamp := isoformat (m_timestamp msg) |}.

(** Every stored message carries a timestamp earlier than the clock. *)
Definition stamped (w : World) : Prop :=
  Forall (fun m => m_timestamp m < now w) (chat_messages (db w)).

(** Time passing between two requests. *)
Definition advance (dt : Z) (w : World) : World :=
  {| db := db w; now := now w + dt; calls := calls w |}.

(** The worlds the service can be in: it starts on an empty database, time
    passes, sessions are created and chat requests are served. *)
Inductive reachable : World -> Prop :=
| reachable_start (t : Z) :
    reachable {| db := {| chat_sessions := []; chat_messages := [] |};
                 now := t; calls := [] |}
| reachable_advance (w : World) (dt : Z) :
    reachable w -> 0 <= dt -> reachable (advance dt w)
| reachable_create_session (w : World) (u : User) (title : string) :
    reachable w -> reachable (snd (create_session u title w))
| reachable_chat (w : World) (g : Globals) (req : ChatRequest) (u : User) :
    reachable w -> reachable (snd (chat g req u w))
| reachable_chat_stream (w : World) (g : Globals) (req : ChatRequest) (u : User) :
    reachable w -> reachable (snd (serve_chat_stream g req u w)).

End Spec.

Import Loader ChatPersistence App Fixtures Spec.

(* ===================================================================== *)
(** ** Strings *)
(* ===================================================================== *)

Lemma truthy_false_iff (s : string) : truthy s = false <-> s = EmptyString.
Proof. destruct s; simpl; split; congruence. Qed.

Lemma truthy_true_iff (s : string) : truthy s = true <-> s <> EmptyString.
Proof. destruct s; simpl; split; congruence. Qed.

Lemma lstrip_whitespace_only (s : string) :
  whitespace_only s = true -> lstrip s = EmptyString.
Proof.
  induction s as [|c s IH]; simpl; [reflexivity|].
  intros H. apply andb_true_iff in H as [Hc Hs].
  rewrite Hc. now apply IH.
Qed.

Lemma lstrip_head (s : string) :
  lstrip s = EmptyString \/
  exists c r, lstrip s = String c r /\ is_space c = false.
Proof.
  induction s as [|c s IH]; simpl; [now left|].
  destruct (is_space c) eqn:Hc; [exact IH|].
  right. now exists c, s.
Qed.

Lemma lstrip_empty_whitespace (s : string) :
  lstrip s = EmptyString -> whitespace_only s = true.
Proof.
  induction s as [|c s IH]; simpl; [reflexivity|].
  destruct (is_space c); [intros H; now rewrite IH|discriminate].
Qed.

Lemma rstrip_keeps_head (c : ascii) (r : string) :
  is_space c = false -> rstrip (String c r) <> EmptyString.
Proof.
  intros Hc. simpl. destruct (rstrip r); [rewrite Hc|]; discriminate.
Qed.

(** [strip] returns the empty string exactly on the empty and the
    whitespace-only strings. *)
Lemma strip_empty_iff (s : string) :
  strip s = EmptyString <-> whitespace_only s = true.
Proof.
  unfold strip. split.
  - intros H. destruct (lstrip_head s) as [E | (c & r & E & Hc)].
    + now apply lstrip_empty_whitespace.
    + rewrite E in H. now apply rstrip_keeps_head in H.
  - intros H. now rewrite lstrip_whitespace_only.
Qed.

Lemma slice_to_prefix (n : nat) (s : string) :
  (n <= String.length s)%nat ->
  exists rest, s = (slice_to n s ++ rest)%string /\ String.length (slice_to n s) = n.
Proof.
  unfold slice_to. revert s.
  induction n as [|n IH]; intros s Hn.
  - exists s. destruct s; simpl; auto.
  - destruct s as [|c s]; simpl in Hn; [lia|].
    destruct (IH s) as (rest & E & L); [lia|].
    exists rest. simpl. split; [now rewrite <- E | now rewrite L].
Qed.

(* ===================================================================== *)
(** ** The handlers, step by step *)
(* ===================================================================== *)

Lemma resolve_session_new req u q w :
  session_id req = None ->
  resolve_session req u q w =
    (let (r, w') := create_session u
                      (if (50 <? String.length q)%nat
                       then (slice_to 50 q ++ "...")%string else q) w in
     (Ok (fresh_id (map s_id (chat_sessions (db w)))), w')).
Proof.
  intros H. unfold resolve_session, bind, ret. rewrite H. reflexivity.
Qed.

Lemma resolve_session_world req u q w sid w1 :
  resolve_session req u q w = (Ok sid, w1) ->
  chat_messages (db w1) = chat_messages (db w) /\
  calls w1 = calls w /\
  now w <= now w1.
Proof.
  unfold resolve_session, bind, ret, raise, query_owned_session, create_session.
  destruct (no_session_id (session_id req)).
  - intros H. inversion H; subst; simpl. repeat split; lia.
  - destruct (find _ _); intros H; inversion H; subst.
    repeat split; lia.
Qed.

(** [chat] from the point where the session is known. *)
Lemma chat_resolved g req u w sid w1 :
  strip (user req) <> EmptyString ->
  resolve_session req u (strip (user req)) w = (Ok sid, w1) ->
  let q := strip (user req) in
  let w2 := snd (save_message sid "user" q w1) in
  let recent := format_messages_for_llm (recent_messages sid 5 w2) in
  let w3 := snd (log (CallSearch q (top_k req)) w2) in
  chat g req u w =
    match similarity_search (index g) (pages g) (embed_model g) q (top_k req) with
    | Raise e => (Raise (HTTPException 500 (DetailError e)), w3)
    | Ok results =>
        let prompt := build_prompt recent (format_context results) q in
        let w4 := snd (log (CallGenerate prompt) w3) in
        match ollama_generate g prompt with
        | Raise e => (Raise (HTTPException 500 (DetailError e)), w4)
        | Ok response =>
            let answer := strip (or_empty response) in
            (Ok (if (strip (format_context results) =? EmptyString)%string
                 then ReplyFull FALLBACK [] sid
                 else ReplyFull answer results sid),
             snd (save_message sid "assistant" answer w4))
        end
    end.
Proof.
  intros Hq Hres. apply truthy_true_iff in Hq.
  unfold chat, chat_try, try_except. rewrite Hq. cbn [negb].
  unfold bind at 1. rewrite Hres.
  unfold bind, call_similarity_search, call_generate, get_recent_context,
    lift, ret, raise, try_except, bind. simpl.
  destruct (similarity_search _ _ _ _ _) as [results|e]; [|reflexivity].
  assert (Hctx : (if nonempty results then format_context results else EmptyString)
                 = format_context results) by now destruct results.
  rewrite Hctx.
  destruct (ollama_generate g _) as [response|e]; [|reflexivity].
  destruct (strip (format_context results) =? EmptyString)%string; reflexivity.
Qed.

(** [chat_stream] and its generator from the point where the session is
    known. *)
Lemma chat_stream_resolved g req u w sid w1 :
  strip (user req) <> EmptyString ->
  resolve_session req u (strip (user req)) w = (Ok sid, w1) ->
  let q := strip (user req) in
  let w2 := snd (save_message sid "user" q w1) in
  let w3 := snd (log (CallSearch q (top_k req)) w2) in
  let recent := format_messages_for_llm (recent_messages sid 5 w3) in
  serve_chat_stream g req u w =
    match similarity_search (index g) (pages g) (embed_model g) q (top_k req) with
    | Raise e => (Raise e, w3)
    | Ok results =>
        let prompt := build_prompt recent (format_context results) q in
        let (events, w') := event_generator g prompt sid w3 in
        (Ok events, w')
    end.
Proof.
  intros Hq Hres. apply truthy_true_iff in Hq.
  unfold serve_chat_stream, chat_stream. cbv zeta.
  change (or_empty (Some (user req))) with (user req).
  rewrite Hq. cbn [negb].
  unfold bind at 1. rewrite Hres.
  unfold bind, call_similarity_search, get_recent_context, lift, ret. simpl.
  destruct (similarity_search _ _ _ _ _) as [results|e]; [|reflexivity].
  assert (Hctx : (if nonempty results then format_context results else EmptyString)
                 = format_context results) by now destruct results.
  rewrite Hctx. reflexivity.
Qed.

Lemma chat_unresolved g req u w e w1 :
  strip (user req) <> EmptyString ->
  resolve_session req u (strip (user req)) w = (Raise e, w1) ->
  chat g req u w = (Raise (HTTPException 500 (DetailError e)), w1) /\
  serve_chat_stream g req u w = (Raise e, w1).
Proof.
  intros Hq Hres. apply truthy_true_iff in Hq. split.
  - unfold chat, chat_try, try_except. rewrite Hq. cbn [negb].
    unfold bind at 1. rewrite Hres. reflexivity.
  - unfold serve_chat_stream, chat_stream. cbv zeta.
    change (or_empty (Some (user req))) with (user req).
    rewrite Hq. cbn [negb]. unfold bind at 1. rewrite Hres. reflexivity.
Qed.

(** A session id that no session of the user carries is not found, and the
    lookup leaves the world as it is. *)
Lemma resolve_session_foreign req u q w sid :
  session_id req = Some sid ->
  sid <> 0 ->
  (forall s, In s (chat_sessions (db w)) -> s_id s = sid -> s_user_id s <> u_id u) ->
  resolve_session req u q w = (Raise NOT_FOUND, w).
Proof.
  intros Hreq Hsid Hown.
  unfold resolve_session, no_session_id. rewrite Hreq.
  destruct (Z.eqb_spec sid 0) as [|_]; [contradiction|].
  unfold bind, query_owned_session, raise.
  destruct (find _ _) as [s|] eqn:Hfind; [|reflexivity].
  apply find_some in Hfind as [Hin Hs].
  apply andb_true_iff in Hs as [H1 H2].
  apply Z.eqb_eq in H1, H2. now destruct (Hown s Hin H1).
Qed.

(** What the generator yields: the non-empty pieces of the model, one
    [data:] event each, closed by the [done] or the [error] event.  The
    retrieved passages play no part in it. *)
Lemma event_generator_events g prompt sid w :
  let pieces := filter truthy (map or_empty (fst (ollama_generate_stream g prompt))) in
  fst (event_generator g prompt sid w) =
    map (fun piece => ("data: " ++ piece ++ nl ++ nl)%string) pieces
    ++ [match snd (ollama_generate_stream g prompt) with
        | Some err => ("event: error" ++ nl ++ "data: " ++ err ++ nl ++ nl)%string
        | None => ("event: done" ++ nl ++ "data: " ++ str_int sid ++ nl ++ nl)%string
        end].
Proof.
  unfold event_generator.
  destruct (ollama_generate_stream g prompt) as [chunks [err|]]; reflexivity.
Qed.

(** Bring a fact about the generator of the goal in, then name what it
    returns. *)
Ltac with_generator fact :=
  match goal with
  | |- context [event_generator ?a ?b ?c ?d] =>
      generalize (fact a b c d);
      destruct (event_generator a b c d) as [events w']
  end.

Lemma event_generator_sessions g prompt sid w :
  chat_sessions (db (snd (event_generator g prompt sid w))) = chat_sessions (db w).
Proof.
  unfold event_generator.
  destruct (ollama_generate_stream g prompt) as [chunks [err|]]; reflexivity.
Qed.

(* ===================================================================== *)
(** ** Validation and session resolution *)
(* ===================================================================== *)

(** Both handlers stop at a question that strips to the empty text. *)
Lemma blank_question g req u w :
  strip (user req) = EmptyString ->
  chat g req u w = (Ok (ReplyOnly "Please send a non-empty question."), w) /\
  serve_chat_stream g req u w =
    (Raise (HTTPException 400 (DetailText "Empty message")), w).
Proof.
  intros H. split.
  - unfold chat, chat_try, try_except. rewrite H. reflexivity.
  - unfold serve_chat_stream, chat_stream. cbv zeta.
    change (or_empty (Some (user req))) with (user req).
    rewrite H. reflexivity.
Qed.

(** C6. For a question that is empty or whitespace-only, [/api/chat]
    answers with the prompt-for-input reply and [/api/chat/stream] raises
    the 400 error; in both cases the world is left exactly as it was: no
    session is created, no message is saved, and neither the search nor the
    model is called. *)
Theorem empty_question_short_circuits g req u w :
  whitespace_only (user req) = true ->
  chat g req u w = (Ok (ReplyOnly "Please send a non-empty question."), w) /\
  serve_chat_stream g req u w =
    (Raise (HTTPException 400 (DetailText "Empty message")), w).
Proof.
  intros H. apply blank_question. now apply strip_empty_iff.
Qed.

Lemma empty_question_short_circuits_witness :
  whitespace_only (user blank_request) = true /\
  chat faq_globals blank_request alice bob_world
    = (Ok (ReplyOnly "Please send a non-empty question."), bob_world) /\
  serve_chat_stream faq_globals blank_request alice bob_world
    = (Raise (HTTPException 400 (DetailText "Empty message")), bob_world).
Proof.
  split; [reflexivity|].
  apply (empty_question_short_circuits faq_globals blank_request alice bob_world).
  reflexivity.
Defined.

(** C5. A request that names a session the requesting user does not own
    saves nothing on either path.  [/api/chat/stream] fails with the 404
    error; in [/api/chat] the 404 is raised inside the handler's [try]
    block, so its catch-all clause turns it into a 500 error whose detail
    carries the 404. *)
Theorem foreign_session_rejected g req u w sid :
  session_id req = Some sid ->
  sid <> 0 ->
  strip (user req) <> EmptyString ->
  (forall s, In s (chat_sessions (db w)) -> s_id s = sid -> s_user_id s <> u_id u) ->
  chat g req u w = (Raise (HTTPException 500 (DetailError NOT_FOUND)), w) /\
  serve_chat_stream g req u w = (Raise NOT_FOUND, w).
Proof.
  intros Hreq Hsid Hq Hown.
  apply chat_unresolved; [exact Hq|].
  now apply resolve_session_foreign with (sid := sid).
Qed.

Lemma foreign_session_rejected_witness :
  chat faq_globals foreign_request alice bob_world
    = (Raise (HTTPException 500 (DetailError NOT_FOUND)), bob_world) /\
  serve_chat_stream faq_globals foreign_request alice bob_world
    = (Raise NOT_FOUND, bob_world).
Proof.
  apply (foreign_session_rejected faq_globals foreign_request alice bob_world 7).
  - reflexivity.
  - discriminate.
  - discriminate.
  - intros s [<-|[]] _. discriminate.
Defined.

(** The sessions table after either handler, once a session was created. *)
Lemma sessions_after_resolution g req u w sid w1 :
  strip (user req) <> EmptyString ->
  resolve_session req u (strip (user req)) w = (Ok sid, w1) ->
  chat_sessions (db (snd (chat g req u w))) = chat_sessions (db w1) /\
  chat_sessions (db (snd (serve_chat_stream g req u w))) = chat_sessions (db w1).
Proof.
  intros Hq Hres. split.
  - rewrite (chat_resolved g req u w sid w1 Hq Hres). cbv zeta.
    destruct (similarity_search _ _ _ _ _) as [results|e]; [|reflexivity].
    destruct (ollama_generate g _) as [response|e]; reflexivity.
  - rewrite (chat_stream_resolved g req u w sid w1 Hq Hres). cbv zeta.
    destruct (similarity_search _ _ _ _ _) as [results|e]; [|reflexivity].
    with_generator event_generator_sessions.
    simpl. auto.
Qed.

(** C4. A request without a session id and with a non-empty question [q]
    (the question as the handlers read it, stripped) adds exactly one
    session, owned by the requesting user; its title is the first 50
    characters of [q] followed by ["..."] when [q] has more than 50
    characters, and [q] itself otherwise.  This holds on both paths. *)
Theorem new_session_title g req u w :
  session_id req = None ->
  strip (user req) <> EmptyString ->
  let q := strip (user req) in
  forall w',
    w' = snd (chat g req u w) \/ w' = snd (serve_chat_stream g req u w) ->
    exists s,
      chat_sessions (db w') = chat_sessions (db w) ++ [s] /\
      s_user_id s = u_id u /\
      ((50 < String.length q)%nat ->
         exists first50 rest,
           q = (first50 ++ rest)%string /\ String.length first50 = 50%nat /\
           s_title s = (first50 ++ "...")%string) /\
      ((String.length q <= 50)%nat -> s_title s = q).
Proof.
  intros Hreq Hq q w' Hw'.
  pose proof (resolve_session_new req u q w Hreq) as Hres.
  unfold create_session in Hres.
  destruct (sessions_after_resolution g req u w _ _ Hq Hres) as [Hc Hs].
  eexists. split.
  - destruct Hw' as [-> | ->]; [rewrite Hc | rewrite Hs]; reflexivity.
  - cbn [s_user_id s_title]. split; [reflexivity|]. split.
    + intros Hlen. apply Nat.ltb_lt in Hlen as Hb. rewrite Hb.
      destruct (slice_to_prefix 50 q) as (rest & E & L); [lia|].
      now exists (slice_to 50 q), rest.
    + intros Hlen. apply Nat.ltb_ge in Hlen. now rewrite Hlen.
Qed.

Lemma new_session_title_witness :
  exists s,
    chat_sessions (db (snd (chat faq_globals long_request alice bob_world)))
      = chat_sessions (db bob_world) ++ [s] /\
    s_user_id s = 1 /\
    ((50 < String.length (strip long_question))%nat ->
       exists first50 rest,
         strip long_question = (first50 ++ rest)%string /\
         String.length first50 = 50%nat /\
         s_title s = (first50 ++ "...")%string) /\
    ((String.length (strip long_question) <= 50)%nat ->
       s_title s = strip long_question).
Proof.
  apply (new_session_title faq_globals long_request alice bob_world).
  - reflexivity.
  - discriminate.
  - left. reflexivity.
Defined.

(* ===================================================================== *)
(** ** The prompt *)
(* ===================================================================== *)

Lemma append_assoc (a b c : string) : ((a ++ b) ++ c = a ++ (b ++ c))%string.
Proof. induction a as [|x a IH]; simpl; [reflexivity | now rewrite IH]. Qed.

Lemma format_messages_render (msgs : list ChatMessage) :
  format_messages_for_llm msgs = join (nl ++ nl)%string (map render msgs).
Proof. reflexivity. Qed.

Lemma render_nonempty (m : ChatMessage) : truthy (render m) = true.
Proof. unfold render. now destruct (m_role m =? "user")%string. Qed.

Lemma join_cons_truthy sep x l : truthy x = true -> truthy (join sep (x :: l)) = true.
Proof.
  unfold join. destruct x as [|c x]; [discriminate|].
  intros _. now destruct l.
Qed.

(** The recent-conversation text is empty exactly when there is no message. *)
Lemma format_messages_truthy (msgs : list ChatMessage) :
  truthy (format_messages_for_llm msgs) = nonempty msgs.
Proof.
  destruct msgs as [|m msgs]; [reflexivity|].
  rewrite format_messages_render. simpl map.
  now rewrite join_cons_truthy by apply render_nonempty.
Qed.

(** The prompt the handlers assemble is the layout of the specification. *)
Lemma build_prompt_layout msgs results q :
  build_prompt (format_messages_for_llm msgs) (format_context results) q
  = spec_prompt msgs results q.
Proof.
  unfold build_prompt, spec_prompt, conversation_block, context_block.
  rewrite format_messages_truthy.
  unfold format_context.
  destruct msgs as [|m msgs];
    destruct (join (nl ++ nl ++ "---" ++ nl ++ nl) results) as [|c joined];
    cbn [nonempty truthy];
    rewrite <- ?format_messages_render;
    unfold SYSTEM_PARTS, system_instruction, join;
    cbn [List.app String.concat];
    rewrite ?append_assoc; reflexivity.
Qed.

(** No retrieved passage, no document-context block; no message, no
    recent-conversation block. *)
Lemma blocks_omitted :
  context_block [] = EmptyString /\ conversation_block [] = EmptyString.
Proof. split; reflexivity. Qed.

(** Retrieved passages that are not all empty do give the block, joined in
    the order of the results. *)
Lemma context_block_present p results :
  p <> EmptyString ->
  context_block (p :: results) =
    ("DOCUMENT CONTEXT:" ++ nl
       ++ join (nl ++ nl ++ "---" ++ nl ++ nl) (p :: results) ++ nl ++ nl)%string.
Proof.
  intros Hp. unfold context_block.
  assert (H : truthy (join (nl ++ nl ++ "---" ++ nl ++ nl) (p :: results)) = true)
    by now apply join_cons_truthy, truthy_true_iff.
  now destruct (join _ (p :: results)).
Qed.

Lemma event_generator_calls g prompt sid w :
  calls (snd (event_generator g prompt sid w)) = calls w ++ [CallGenerateStream prompt].
Proof.
  unfold event_generator.
  destruct (ollama_generate_stream g prompt) as [chunks [err|]]; reflexivity.
Qed.

(** The calls either handler makes once the session is resolved and the
    search has returned: one search, then one generation with the prompt of
    the specification's layout. *)
Lemma handler_calls g req u w sid w1 results :
  strip (user req) <> EmptyString ->
  resolve_session req u (strip (user req)) w = (Ok sid, w1) ->
  similarity_search (index g) (pages g) (embed_model g) (strip (user req)) (top_k req)
    = Ok results ->
  let q := strip (user req) in
  let recent := recent_messages sid 5 (snd (save_message sid "user" q w1)) in
  let prompt := spec_prompt recent results q in
  calls (snd (chat g req u w))
    = calls w ++ [CallSearch q (top_k req); CallGenerate prompt] /\
  calls (snd (serve_chat_stream g req u w))
    = calls w ++ [CallSearch q (top_k req); CallGenerateStream prompt].
Proof.
  intros Hq Hres Hsearch q recent prompt.
  destruct (resolve_session_world _ _ _ _ _ _ Hres) as (_ & Hcalls & _).
  split.
  - rewrite (chat_resolved g req u w sid w1 Hq Hres). cbv zeta.
    rewrite Hsearch, build_prompt_layout.
    fold q recent prompt.
    destruct (ollama_generate g prompt) as [response|e];
      simpl; rewrite Hcalls, <- app_assoc; reflexivity.
  - rewrite (chat_stream_resolved g req u w sid w1 Hq Hres). cbv zeta.
    rewrite Hsearch, build_prompt_layout.
    change (recent_messages sid 5
              (snd (log (CallSearch (strip (user req)) (top_k req))
                      (snd (save_message sid "user" (strip (user req)) w1)))))
      with recent.
    fold q prompt.
    with_generator event_generator_calls.
    simpl. intros ->. rewrite Hcalls, <- app_assoc. reflexivity.
Qed.

(** C8. For a non-empty question whose session is resolved and whose
    search returns, the one prompt sent to the model -- by [/api/chat] and
    by [/api/chat/stream] alike -- is the fixed concatenation of the system
    instruction, the recent-conversation block, the document-context block
    (the passages joined in result order), the question and the answer cue;
    a block without content is left out altogether. *)
Theorem prompt_sent_to_model g req u w sid w1 results :
  strip (user req) <> EmptyString ->
  resolve_session req u (strip (user req)) w = (Ok sid, w1) ->
  similarity_search (index g) (pages g) (embed_model g) (strip (user req)) (top_k req)
    = Ok results ->
  let q := strip (user req) in
  let recent := recent_messages sid 5 (snd (save_message sid "user" q w1)) in
  let prompt := spec_prompt recent results q in
  calls (snd (chat g req u w))
    = calls w ++ [CallSearch q (top_k req); CallGenerate prompt] /\
  calls (snd (serve_chat_stream g req u w))
    = calls w ++ [CallSearch q (top_k req); CallGenerateStream prompt] /\
  context_block [] = EmptyString /\
  conversation_block [] = EmptyString.
Proof.
  intros Hq Hres Hsearch q recent prompt.
  destruct (handler_calls g req u w sid w1 results Hq Hres Hsearch) as [Hc Hs].
  repeat split; [exact Hc | exact Hs].
Qed.

Lemma prompt_sent_to_model_witness :
  calls (snd (chat faq_globals followup_request bob bob_world))
    = [CallSearch "And how long do returns take?" 1;
       CallGenerate
         (spec_prompt
            (recent_messages 7 5
               (snd (save_message 7 "user" "And how long do returns take?" bob_world)))
            ["Shipping takes 3-5 business days."]
            "And how long do returns take?")].
Proof.
  apply (prompt_sent_to_model faq_globals followup_request bob bob_world 7 bob_world).
  - discriminate.
  - reflexivity.
  - reflexivity.
Defined.

(* ===================================================================== *)
(** ** Generation, persistence and the fallback *)
(* ===================================================================== *)

(** C10. On [/api/chat], when the search returns no passage and the model
    answers, the model has still been called with the prompt, the user
    message and the model's stripped answer are both saved, in that order,
    and the response is the fallback sentence with an empty [sources_used]
    and the resolved session id. *)
Theorem chat_without_passages g req u w sid w1 response :
  strip (user req) <> EmptyString ->
  resolve_session req u (strip (user req)) w = (Ok sid, w1) ->
  similarity_search (index g) (pages g) (embed_model g) (strip (user req)) (top_k req)
    = Ok [] ->
  let q := strip (user req) in
  let recent := recent_messages sid 5 (snd (save_message sid "user" q w1)) in
  let prompt := spec_prompt recent [] q in
  ollama_generate g prompt = Ok response ->
  exists w' m_user m_assistant,
    chat g req u w = (Ok (ReplyFull FALLBACK [] sid), w') /\
    calls w' = calls w ++ [CallSearch q (top_k req); CallGenerate prompt] /\
    chat_messages (db w') = chat_messages (db w) ++ [m_user; m_assistant] /\
    (m_session_id m_user = sid /\ m_role m_user = "user" /\ m_content m_user = q) /\
    (m_session_id m_assistant = sid /\ m_role m_assistant = "assistant" /\
     m_content m_assistant = strip (or_empty response)).
Proof.
  intros Hq Hres Hsearch q recent prompt Hgen.
  destruct (resolve_session_world _ _ _ _ _ _ Hres) as (Hmsgs & Hcalls & _).
  rewrite (chat_resolved g req u w sid w1 Hq Hres). cbv zeta.
  rewrite Hsearch, build_prompt_layout.
  fold q recent prompt. rewrite Hgen.
  do 3 eexists. split; [reflexivity|].
  simpl. rewrite Hcalls, Hmsgs, <- !app_assoc.
  repeat split; reflexivity.
Qed.

Lemma chat_without_passages_witness :
  exists w' m_user m_assistant,
    chat stale_globals far_request alice empty_world
      = (Ok (ReplyFull FALLBACK [] 1), w') /\
    calls w'
      = calls empty_world
        ++ [CallSearch "0123456789" 1;
            CallGenerate
              (spec_prompt
                 (recent_messages 1 5
                    (snd (save_message 1 "user" "0123456789"
                            (snd (create_session alice "0123456789" empty_world)))))
                 [] "0123456789")] /\
    chat_messages (db w')
      = chat_messages (db empty_world) ++ [m_user; m_assistant] /\
    (m_session_id m_user = 1 /\ m_role m_user = "user"
     /\ m_content m_user = "0123456789") /\
    (m_session_id m_assistant = 1 /\ m_role m_assistant = "assistant" /\
     m_content m_assistant = strip (or_empty (Some " Paris is the capital of France. "))).
Proof.
  apply (chat_without_passages stale_globals far_request alice empty_world 1
           (snd (create_session alice "0123456789" empty_world))
           (Some " Paris is the capital of France. ")).
  - discriminate.
  - reflexivity.
  - reflexivity.
  - reflexivity.
Defined.

(** C7. Whenever [/api/chat] answers with a full reply, the model was
    called and returned, and the last message saved is the assistant
    message holding the model's stripped output, right after the user
    message.  The reply is either that same text or, when no context was
    retrieved, the fallback sentence: the override touches the reply only,
    never the saved message. *)
Theorem assistant_message_is_model_output g req u w reply sources sid w' :
  chat g req u w = (Ok (ReplyFull reply sources sid), w') ->
  exists prompt response m_user m_assistant,
    In (CallGenerate prompt) (calls w') /\
    ollama_generate g prompt = Ok response /\
    chat_messages (db w') = chat_messages (db w) ++ [m_user; m_assistant] /\
    m_session_id m_assistant = sid /\
    m_role m_assistant = "assistant" /\
    m_content m_assistant = strip (or_empty response) /\
    (reply = m_content m_assistant \/ (reply = FALLBACK /\ sources = [])).
Proof.
  intros Hchat.
  destruct (string_dec (strip (user req)) EmptyString) as [Hempty | Hq].
  { destruct (blank_question g req u w Hempty) as [E _].
    rewrite E in Hchat. discriminate. }
  destruct (resolve_session req u (strip (user req)) w)
    as [[sid0 | e] w1] eqn:Hres.
  2: { destruct (chat_unresolved g req u w e w1 Hq Hres) as [E _].
       rewrite E in Hchat. discriminate. }
  destruct (resolve_session_world _ _ _ _ _ _ Hres) as (Hmsgs & Hcalls & _).
  rewrite (chat_resolved g req u w sid0 w1 Hq Hres) in Hchat. cbv zeta in Hchat.
  destruct (similarity_search _ _ _ _ _) as [results | e]; [|discriminate].
  match type of Hchat with
  | context [ollama_generate g ?p] =>
      set (prompt := p) in *; destruct (ollama_generate g prompt) as [response | e] eqn:Hgen
  end; [|discriminate].
  exists prompt, response. do 2 eexists.
  destruct (strip (format_context results) =? EmptyString)%string;
    inversion Hchat; subst; simpl;
    rewrite Hmsgs, <- !app_assoc;
    (split; [apply in_or_app; right; simpl; auto|]);
    repeat split; auto.
Qed.

Lemma assistant_message_is_model_output_witness :
  exists prompt response m_user m_assistant,
    In (CallGenerate prompt)
       (calls (snd (chat stale_globals far_request alice empty_world))) /\
    ollama_generate stale_globals prompt = Ok response /\
    chat_messages (db (snd (chat stale_globals far_request alice empty_world)))
      = chat_messages (db empty_world) ++ [m_user; m_assistant] /\
    m_session_id m_assistant = 1 /\
    m_role m_assistant = "assistant" /\
    m_content m_assistant = strip (or_empty response) /\
    (FALLBACK = m_content m_assistant \/ (FALLBACK = FALLBACK /\ @nil string = [])).
Proof.
  apply (assistant_message_is_model_output stale_globals far_request alice
           empty_world FALLBACK [] 1
           (snd (chat stale_globals far_request alice empty_world))).
  reflexivity.
Defined.

(** With no passage retrieved the saved assistant message and the reply
    part ways: the model's sentence is stored, the fallback is returned. *)
Example stored_answer_differs_from_reply :
  fst (chat stale_globals far_request alice empty_world)
    = Ok (ReplyFull FALLBACK [] 1) /\
  map m_content (chat_messages (db (snd (chat stale_globals far_request alice empty_world))))
    = ["0123456789"; "Paris is the capital of France."].
Proof. split; reflexivity. Qed.

(* ===================================================================== *)
(** ** Ordered rows *)
(* ===================================================================== *)

Section SortByFacts.
Context {A : Type} (key : A -> Z).

Lemma insert_by_perm (x : A) (l : list A) :
  Permutation (x :: l) (insert_by key x l).
Proof.
  induction l as [|y l IH]; simpl; [reflexivity|].
  destruct (key x <=? key y); [reflexivity|].
  rewrite perm_swap. now constructor.
Qed.

Lemma sort_by_perm (l : list A) : Permutation l (sort_by key l).
Proof.
  induction l as [|x l IH]; simpl; [constructor|].
  rewrite <- insert_by_perm. now constructor.
Qed.

Lemma insert_by_ascending (x : A) (l : list A) :
  ascending key l -> ascending key (insert_by key x l).
Proof.
  unfold ascending.
  induction l as [|y l IH]; intros Hl; simpl.
  - constructor; constructor.
  - apply StronglySorted_inv in Hl as [Hl Hy].
    destruct (Z.leb_spec (key x) (key y)) as [Hxy|Hxy].
    + constructor; [now constructor|].
      constructor; [exact Hxy|].
      eapply Forall_impl; [|exact Hy]. simpl. intros; lia.
    + constructor; [now apply IH|].
      eapply Permutation_Forall; [apply insert_by_perm|].
      constructor; [lia|exact Hy].
Qed.

Lemma sort_by_ascending (l : list A) : ascending key (sort_by key l).
Proof.
  induction l as [|x l IH]; simpl; [constructor|].
  now apply insert_by_ascending.
Qed.

(** A row whose key is below every other key comes out first, wherever
    it was added. *)
Lemma sort_by_snoc_least (l : list A) (m : A) :
  Forall (fun x => key m < key x) l ->
  sort_by key (l ++ [m]) = m :: sort_by key l.
Proof.
  induction 1 as [|x l Hx Hl IH]; simpl; [reflexivity|].
  fold (sort_by key (l ++ [m])). fold (sort_by key l).
  rewrite IH. simpl.
  destruct (Z.leb_spec (key x) (key m)); [lia|reflexivity].
Qed.

Lemma ascending_firstn (n : nat) (l : list A) :
  ascending key l -> ascending key (firstn n l).
Proof.
  unfold ascending. revert l.
  induction n as [|n IH]; intros [|x l] Hl; simpl; try constructor.
  - apply IH. now apply StronglySorted_inv in Hl.
  - apply StronglySorted_inv in Hl as [_ Hx].
    rewrite Forall_forall in *. intros y Hy.
    apply Hx. revert Hy. clear. revert l.
    induction n as [|n IH]; intros [|z l]; simpl; try tauto.
    intros [->|H]; [now left | right; now apply IH].
Qed.

(** Reversing a list that is ascending in [- key] gives one ascending in
    [key]. *)
Lemma ascending_rev (l : list A) :
  ascending (fun x => - key x) l -> ascending key (rev l).
Proof.
  unfold ascending.
  induction l as [|x l IH]; intros Hl; simpl; [constructor|].
  apply StronglySorted_inv in Hl as [Hl Hx].
  specialize (IH Hl). revert IH.
  assert (Hrev : Forall (fun y => key y <= key x) (rev l)).
  { apply Forall_rev. eapply Forall_impl; [|exact Hx]. simpl. intros; lia. }
  revert Hrev. generalize (rev l) as r.
  induction r as [|y r IHr]; intros Hr Hs; simpl.
  - constructor; constructor.
  - apply StronglySorted_inv in Hs as [Hs Hy].
    inversion Hr; subst.
    constructor; [now apply IHr|].
    apply Forall_app. split; [exact Hy|]. now constructor.
Qed.
End SortByFacts.

(* ===================================================================== *)
(** ** The recent conversation *)
(* ===================================================================== *)

Lemma In_firstn {A : Type} (n : nat) (l : list A) (x : A) :
  In x (firstn n l) -> In x l.
Proof.
  revert l. induction n as [|n IH]; intros [|y l]; simpl; try tauto.
  intros [->|H]; [now left | right; now apply IH].
Qed.


(** *** Timestamps stay behind the clock *)

Lemma stamped_later w w' :
  chat_messages (db w') = chat_messages (db w) ->
  now w <= now w' ->
  stamped w -> stamped w'.
Proof.
  unfold stamped. intros -> Hnow H.
  eapply Forall_impl; [|exact H]. simpl. intros; lia.
Qed.

Lemma stamped_save_message sid role content w :
  stamped w -> stamped (snd (save_message sid role content w)).
Proof.
  unfold stamped. simpl. intros H. apply Forall_app. split.
  - eapply Forall_impl; [|exact H]. simpl. intros; lia.
  - repeat constructor. simpl. lia.
Qed.

Lemma stamped_resolve_session req u q w r w1 :
  resolve_session req u q w = (r, w1) -> stamped w -> stamped w1.
Proof.
  unfold resolve_session, bind, ret, raise, query_owned_session, create_session.
  destruct (no_session_id (session_id req)).
  - intros E. inversion E; subst. apply stamped_later; simpl; [reflexivity|lia].
  - destruct (find _ _); intros E; inversion E; subst; auto.
Qed.

Lemma stamped_event_generator g prompt sid w :
  stamped w -> stamped (snd (event_generator g prompt sid w)).
Proof.
  intros H. unfold event_generator.
  destruct (ollama_generate_stream g prompt) as [chunks [err|]]; cbn [snd].
  - revert H. apply stamped_later; simpl; [reflexivity|lia].
  - apply stamped_save_message.
    revert H. apply stamped_later; simpl; [reflexivity|lia].
Qed.

Lemma stamped_chat g req u w : stamped w -> stamped (snd (chat g req u w)).
Proof.
  intros H.
  destruct (string_dec (strip (user req)) EmptyString) as [Hempty | Hq].
  { destruct (blank_question g req u w Hempty) as [-> _]. exact H. }
  destruct (resolve_session req u (strip (user req)) w) as [[sid | e] w1] eqn:Hres;
    pose proof (stamped_resolve_session _ _ _ _ _ _ Hres H) as H1.
  2: { destruct (chat_unresolved g req u w e w1 Hq Hres) as [-> _]. exact H1. }
  rewrite (chat_resolved g req u w sid w1 Hq Hres). cbv zeta.
  pose proof (stamped_save_message sid "user" (strip (user req)) w1 H1) as H2.
  destruct (similarity_search _ _ _ _ _) as [results | e]; cbn [snd].
  2: { revert H2. apply stamped_later; simpl; [reflexivity|lia]. }
  destruct (ollama_generate g _) as [response | e]; cbn [snd].
  - apply stamped_save_message.
    revert H2. apply stamped_later; simpl; [reflexivity|lia].
  - revert H2. apply stamped_later; simpl; [reflexivity|lia].
Qed.

Lemma stamped_chat_stream g req u w :
  stamped w -> stamped (snd (serve_chat_stream g req u w)).
Proof.
  intros H.
  destruct (string_dec (strip (user req)) EmptyString) as [Hempty | Hq].
  { destruct (blank_question g req u w Hempty) as [_ ->]. exact H. }
  destruct (resolve_session req u (strip (user req)) w) as [[sid | e] w1] eqn:Hres;
    pose proof (stamped_resolve_session _ _ _ _ _ _ Hres H) as H1.
  2: { destruct (chat_unresolved g req u w e w1 Hq Hres) as [_ ->]. exact H1. }
  rewrite (chat_stream_resolved g req u w sid w1 Hq Hres). cbv zeta.
  pose proof (stamped_save_message sid "user" (strip (user req)) w1 H1) as H2.
  destruct (similarity_search _ _ _ _ _) as [results | e]; cbn [snd].
  2: { revert H2. apply stamped_later; simpl; [reflexivity|lia]. }
  match goal with
  | |- context [event_generator ?a ?b ?c ?d] =>
      assert (H3 : stamped (snd (event_generator a b c d)));
      [|destruct (event_generator a b c d) as [events w']; exact H3]
  end.
  apply stamped_event_generator.
  revert H2. apply stamped_later; simpl; [reflexivity|lia].
Qed.

(** Under a clock that moves on with every commit, as the one of [World]
    does, the timestamps of the stored messages lie before the clock in
    every world the service reaches from an empty database.  A database
    that can stamp two rows alike is outside this lemma. *)
Lemma reachable_stamped w : reachable w -> stamped w.
Proof.
  induction 1 as [t | w dt _ IH Hdt | w u title _ IH | w g req u _ IH | w g req u _ IH].
  - constructor.
  - revert IH. apply stamped_later; simpl; [reflexivity|lia].
  - revert IH. apply stamped_later; simpl; [reflexivity|lia].
  - now apply stamped_chat.
  - now apply stamped_chat_stream.
Qed.


(** With five messages of the session at the timestamp of the new one,
    the limit of five leaves the current question out of the block
    altogether. *)
Example crowded_tie_drops_question :
  let q := "And how long do returns take?" in
  map m_content (recent_messages 7 5 (snd (save_message 7 "user" q crowded_world)))
    = ["Noted."; "Noted."; "Noted."; "Noted."; "Noted."] /\
  ~ In (user_row 7 q crowded_world)
       (recent_messages 7 5 (snd (save_message 7 "user" q crowded_world))).
Proof.
  split; [reflexivity|]. cbv. intros H.
  repeat (destruct H as [H|H]; [discriminate H|]). exact H.
Qed.



(** The prompt of Bob's follow-up question, in full. *)
Example followup_prompt :
  calls (snd (chat faq_globals followup_request bob bob_world))
  = [CallSearch "And how long do returns take?" 1;
     CallGenerate
       (system_instruction
          ++ "RECENT CONVERSATION:" ++ nl
          ++ "User: How long does shipping take?" ++ nl ++ nl
          ++ "Assistant: 3-5 business days." ++ nl ++ nl
          ++ "User: And how long do returns take?" ++ nl ++ nl
          ++ "DOCUMENT CONTEXT:" ++ nl
          ++ "Shipping takes 3-5 business days." ++ nl ++ nl
          ++ "Question: And how long do returns take?" ++ nl ++ nl
          ++ "Answer:")%string].
Proof. reflexivity. Qed.

(* ===================================================================== *)
(** ** The fallback on the two paths *)
(* ===================================================================== *)

(** X24. What a streaming client receives once the session is resolved
    and the search has returned: one [data:] event for each non-empty piece
    of the model, in order, closed by the [done] event with the session id
    or, when the model's stream fails, by the [error] event -- whatever the
    search found. *)
Lemma chat_stream_events g req u w sid w1 results :
  strip (user req) <> EmptyString ->
  resolve_session req u (strip (user req)) w = (Ok sid, w1) ->
  similarity_search (index g) (pages g) (embed_model g) (strip (user req)) (top_k req)
    = Ok results ->
  let q := strip (user req) in
  let recent := recent_messages sid 5 (snd (save_message sid "user" q w1)) in
  let prompt := spec_prompt recent results q in
  let pieces := filter truthy (map or_empty (fst (ollama_generate_stream g prompt))) in
  fst (serve_chat_stream g req u w) =
    Ok (map (fun piece => ("data: " ++ piece ++ nl ++ nl)%string) pieces
        ++ [match snd (ollama_generate_stream g prompt) with
            | Some err => ("event: error" ++ nl ++ "data: " ++ err ++ nl ++ nl)%string
            | None => ("event: done" ++ nl ++ "data: " ++ str_int sid ++ nl ++ nl)%string
            end]).
Proof.
  intros Hq Hres Hsearch q recent prompt pieces.
  rewrite (chat_stream_resolved g req u w sid w1 Hq Hres). cbv zeta.
  rewrite Hsearch, build_prompt_layout.
  change (recent_messages sid 5
            (snd (log (CallSearch (strip (user req)) (top_k req))
                    (snd (save_message sid "user" (strip (user req)) w1)))))
    with recent.
  fold q prompt.
  with_generator event_generator_events.
  simpl. now intros ->.
Qed.

(** C2. With the search returning no passage, [/api/chat] replies with the
    fallback sentence, but [/api/chat/stream] sends the text the model
    generated: here the stale index ranks label 1 first, which the
    one-entry passage list filters out, and the stream carries the model's
    two pieces followed by the [done] event. *)
Theorem stream_reply_without_passages :
  similarity_search (index stale_globals) (pages stale_globals)
    (embed_model stale_globals) (strip (user far_request)) (top_k far_request)
    = Ok [] /\
  fst (chat stale_globals far_request alice empty_world)
    = Ok (ReplyFull "Sorry, I don't have that information." [] 1) /\
  fst (serve_chat_stream stale_globals far_request alice empty_world)
    = Ok [ ("data: Paris is " ++ nl ++ nl)%string;
           ("data: the capital." ++ nl ++ nl)%string;
           ("event: done" ++ nl ++ "data: 1" ++ nl ++ nl)%string ].
Proof. repeat split; reflexivity. Qed.

(* ===================================================================== *)
(** ** Loading the persisted index *)
(* ===================================================================== *)

(** C3, as stated, fails: with both artifacts on disk, an index of three
    vectors next to a list of two passages is returned as it is, the files
    are left untouched, and nothing is rebuilt from the PDF. *)
Lemma stale_artifacts_are_returned :
  load_index toy_faiss (Ok toy_encoder) stale_files
    = Ok (Some (stale_index, faq_pages, toy_encoder)) /\
  ntotal stale_index <> Z.of_nat (List.length faq_pages) /\
  build_or_load_index toy_faiss (Ok toy_encoder) stale_files
    = (Ok (stale_index, faq_pages, toy_encoder), stale_files) /\
  build_or_load_index toy_faiss (Ok toy_encoder) stale_files
    <> build_index_from_pdf toy_faiss (Ok toy_encoder) stale_files.
Proof. repeat split; discriminate. Qed.

(** C3, amended.  When both artifact files exist and can be read and the
    embedding model loads, [build_or_load_index] returns the index and the
    passage list as they were read, whatever the vector count of the one
    and the length of the other, and leaves the files untouched.  It turns
    to the rebuild from the PDF exactly when one of the two files is
    absent.  When both files exist and reading one of them raises, or the
    model cannot be loaded, that exception leaves [build_or_load_index]:
    nothing is rebuilt and no file is written. *)
Theorem load_does_not_compare_counts faiss hub fs :
  (forall content pages model,
     faiss_index_faiss fs = Stored content ->
     texts_pkl fs = Stored pages ->
     hub = Ok model ->
     build_or_load_index faiss hub fs
       = (Ok (read_index faiss content, pages, model), fs) /\
     xb (read_index faiss content) = snd content) /\
  (faiss_index_faiss fs = Absent \/ texts_pkl fs = Absent <->
   load_index faiss hub fs = Ok None) /\
  (faiss_index_faiss fs = Absent \/ texts_pkl fs = Absent ->
   build_or_load_index faiss hub fs = build_index_from_pdf faiss hub fs) /\
  (forall e,
     texts_pkl fs <> Absent ->
     faiss_index_faiss fs = Unreadable e
     \/ (exists content, faiss_index_faiss fs = Stored content
                         /\ texts_pkl fs = Unreadable e)
     \/ (exists content pages, faiss_index_faiss fs = Stored content
                               /\ texts_pkl fs = Stored pages /\ hub = Raise e) ->
     build_or_load_index faiss hub fs = (Raise e, fs)).
Proof.
  unfold build_or_load_index, load_index.
  split; [|split; [split|split]].
  - intros content pages model -> -> ->. split; reflexivity.
  - intros [-> | ->]; [reflexivity|].
    now destruct (faiss_index_faiss fs).
  - destruct (faiss_index_faiss fs), (texts_pkl fs), hub; intros E;
      try discriminate E; auto.
  - intros [-> | ->]; [reflexivity|].
    now destruct (faiss_index_faiss fs).
  - intros e Ht [-> | [(content & -> & ->) | (content & pages & -> & -> & ->)]];
      try reflexivity.
    now destruct (texts_pkl fs).
Qed.

Lemma load_does_not_compare_counts_witness :
  (build_or_load_index toy_faiss (Ok toy_encoder) stale_files
     = (Ok (stale_index, faq_pages, toy_encoder), stale_files) /\
   xb stale_index = [[3]; [10]; [20]]) /\
  build_or_load_index toy_faiss (Ok toy_encoder) no_files
    = build_index_from_pdf toy_faiss (Ok toy_encoder) no_files /\
  build_or_load_index toy_faiss (Ok toy_encoder) torn_files
    = (Raise (RuntimeError "read error"), torn_files) /\
  build_or_load_index toy_faiss (Ok toy_encoder) torn_texts
    = (Raise UnpicklingError, torn_texts).
Proof.
  pose proof (load_does_not_compare_counts toy_faiss (Ok toy_encoder) stale_files)
    as (Hread & _).
  pose proof (load_does_not_compare_counts toy_faiss (Ok toy_encoder) no_files)
    as (_ & _ & Habsent & _).
  pose proof (load_does_not_compare_counts toy_faiss (Ok toy_encoder) torn_files)
    as (_ & _ & _ & Htorn).
  pose proof (load_does_not_compare_counts toy_faiss (Ok toy_encoder) torn_texts)
    as (_ & _ & _ & Htexts).
  split; [|split; [|split]].
  - apply (Hread (write_index stale_index) faq_pages toy_encoder); reflexivity.
  - apply Habsent. left. reflexivity.
  - apply Htorn; [discriminate | left; reflexivity].
  - apply Htexts; [discriminate|]. right. left.
    exists (write_index stale_index). split; reflexivity.
Defined.

(** An index file that cannot be read: the load raises although the PDF
    is there to build from. *)
Example torn_index_is_fatal :
  fst (build_or_load_index toy_faiss (Ok toy_encoder) torn_files)
    = Raise (RuntimeError "read error") /\
  fst (build_index_from_pdf toy_faiss (Ok toy_encoder) torn_files)
    = Ok (faq_index, faq_pages, toy_encoder).
Proof. repeat split. Qed.

(** The rebuild from the PDF of the example: blank pages are dropped, the
    texts are stripped, and both artifacts are written. *)
Example rebuild_from_pdf :
  build_or_load_index toy_faiss (Ok toy_encoder) no_files
  = (Ok ({| d := 1; xb := [[36]; [33]]; lib := toy_faiss |}, faq_pages, toy_encoder),
     {| faiss_index_faiss := Stored (1%nat, [[36]; [33]]);
        texts_pkl := Stored faq_pages;
        pdf := pdf no_files |}).
Proof. reflexivity. Qed.

(* ===================================================================== *)
(** ** Similarity search *)
(* ===================================================================== *)


(** Every ranked pair is the distance of a stored vector and its label. *)
Lemma in_combine_labels {V : Type} (f : V -> Z) (xs : list V) s dist l :
  In (dist, l) (combine (map f xs) (labels_from s (List.length xs))) ->
  s <= l < s + Z.of_nat (List.length xs) /\
  exists v, nth_error xs (Z.to_nat (l - s)) = Some v /\ dist = f v.
Proof.
  revert s. induction xs as [|x xs IH]; intros s; simpl; [tauto|].
  intros [E | Hin].
  - inversion E; subst. split; [lia|].
    exists x. now rewrite Z.sub_diag.
  - apply IH in Hin as (Hl & v & Hv & Hd).
    split; [lia|]. exists v. split; [|exact Hd].
    replace (l - s) with (Z.succ (l - (s + 1))) by lia.
    rewrite Z2Nat.inj_succ by lia. exact Hv.
Qed.


Lemma ranked_hits index q dist l :
  In (dist, l) (ranked index q) ->
  0 <= l < ntotal index /\
  exists v, nth_error (xb index) (Z.to_nat l) = Some v
            /\ dist = fvec_L2sqr (lib index) q v.
Proof.
  unfold ranked, sort_by_distance. intros Hin.
  eapply Permutation_in in Hin; [|symmetry; apply sort_by_perm].
  apply in_combine_labels in Hin as (Hl & v & Hv & Hd).
  rewrite Z.sub_0_r in Hv. unfold ntotal. split; [lia|]. now exists v.
Qed.

Lemma getitem_in_range (pages : list string) idx :
  - Z.of_nat (List.length pages) <= idx < Z.of_nat (List.length pages) ->
  getitem pages idx = Ok (page_at pages idx).
Proof.
  intros Hidx. unfold getitem, page_at.
  set (j := if idx <? 0 then Z.of_nat (List.length pages) + idx else idx).
  assert (Hj : 0 <= j < Z.of_nat (List.length pages)).
  { unfold j. destruct (Z.ltb_spec idx 0); lia. }
  destruct (Z.leb_spec 0 j); [|lia].
  destruct (Z.ltb_spec j (Z.of_nat (List.length pages))); [|lia].
  simpl. rewrite (nth_error_nth' pages EmptyString); [reflexivity|lia].
Qed.

(** The loop keeps every index inside [-len(pages), len(pages)): the
    negative ones pass the test [idx < len(pages)] too. *)
Lemma collect_in_range pages I0 results :
  Forall (fun idx => - Z.of_nat (List.length pages) <= idx < Z.of_nat (List.length pages)) I0 ->
  collect pages I0 results = Ok (results ++ map (page_at pages) I0).
Proof.
  intros H. revert results.
  induction H as [|idx I0 Hidx _ IH]; intros results; simpl.
  - now rewrite app_nil_r.
  - destruct (Z.ltb_spec idx (Z.of_nat (List.length pages))); [|lia].
    rewrite getitem_in_range by exact Hidx.
    rewrite IH, <- app_assoc. reflexivity.
Qed.

(** A search with the right dimension and a [k] the process can serve
    returns its two rows. *)
Lemma search_ok index q k :
  List.length q = d index ->
  0 < k <= results_limit (lib index) ->
  let found := firstn (Z.to_nat k) (ranked index q) in
  let pad := (Z.to_nat k - List.length found)%nat in
  search index q k
  = Ok (map fst found ++ repeat FLT_MAX pad, map snd found ++ repeat (-1) pad).
Proof.
  intros Hdim [Hk Hlim] found pad. unfold search.
  rewrite Hdim, Nat.eqb_refl. cbn [negb].
  assert (H60 : 2 ^ 60 = 1152921504606846976) by reflexivity.
  assert (H61 : 2 ^ 61 = 2305843009213693952) by reflexivity.
  unfold results_limit in Hlim. rewrite H60 in Hlim. rewrite H60, H61.
  destruct (Z.ltb_spec 0 k); [|lia]. cbn [negb].
  destruct (Z.leb_spec 2305843009213693952 k); [lia|].
  destruct (Z.ltb_spec (Z.pos (k_max (lib index))) k); [lia|].
  destruct (Z.leb_spec 1152921504606846976 k); [lia|].
  reflexivity.
Qed.

(** The search over an index built from the passages themselves: the [k]
    labels faiss returns, each mapped to a passage. *)
Lemma similarity_search_built faiss pages model query k :
  pages <> [] ->
  0 < k <= results_limit faiss ->
  List.length (model query) = d (build_index faiss (map model pages)) ->
  let index := build_index faiss (map model pages) in
  let found := firstn (Z.to_nat k) (ranked index (model query)) in
  let pad := (Z.to_nat k - List.length found)%nat in
  similarity_search index pages model query k
  = Ok (map (page_at pages) (map snd found ++ repeat (-1) pad)).
Proof.
  intros Hpages Hk Hdim index found pad.
  unfold similarity_search. fold index.
  rewrite (search_ok index (model query) k Hdim Hk). cbv zeta. fold found pad.
  apply collect_in_range.
  assert (Hn : (0 < List.length pages)%nat) by (destruct pages; simpl; [congruence|lia]).
  apply Forall_app. split.
  - apply Forall_forall. intros l Hl.
    apply in_map_iff in Hl as ([dist l'] & <- & Hin).
    apply In_firstn, ranked_hits in Hin as [Hr _].
    unfold ntotal, index in Hr. simpl in Hr. rewrite length_map in Hr.
    simpl. lia.
  - apply Forall_forall. intros l Hl. apply repeat_spec in Hl. lia.
Qed.

(** X5. Over an index built from a non-empty corpus, a search with a [k]
    from 1 up to the largest the process can serve returns exactly [k]
    passages, also when [k] exceeds the number of passages: every padding
    label [-1] passes the bound test and reads the last passage. *)
Lemma similarity_search_returns_k faiss pages model query k :
  pages <> [] ->
  0 < k <= results_limit faiss ->
  List.length (model query) = d (build_index faiss (map model pages)) ->
  exists results,
    similarity_search (build_index faiss (map model pages)) pages model query k
      = Ok results /\
    Z.of_nat (List.length results) = k.
Proof.
  intros Hpages Hk Hdim.
  rewrite (similarity_search_built faiss pages model query k Hpages Hk Hdim). cbv zeta.
  eexists. split; [reflexivity|].
  rewrite length_map, length_app, length_map, repeat_length.
  pose proof (firstn_le_length (Z.to_nat k)
                (ranked (build_index faiss (map model pages)) (model query))).
  lia.
Qed.


(** C1, on the code: over the two-passage corpus a search with [k = 3]
    returns three passages, more than [min(3, 2)]; the third is the last
    passage again, read through the padding label [-1], and the distances
    of the returned passages to the query go down at the end. *)
Theorem similarity_search_beyond_corpus :
  let query := "What did I ask before?" in
  let results := [ "Shipping takes 3-5 business days.";
                   "Returns are accepted within 30 days.";
                   "Shipping takes 3-5 business days." ] in
  search faq_index (toy_encoder query) 3
    = Ok ([121; 196; FLT_MAX], [1; 0; -1]) /\
  similarity_search faq_index faq_pages toy_encoder query 3 = Ok results /\
  (Nat.min 3 (List.length faq_pages) < List.length results)%nat /\
  map (fun p => l2_sqr (toy_encoder query) (toy_encoder p)) results = [121; 196; 121].
Proof. cbv zeta. repeat split. simpl. lia. Qed.

(* ===================================================================== *)
(** ** More on the loader *)
(* ===================================================================== *)

Lemma rstrip_idempotent (s : string) : rstrip (rstrip s) = rstrip s.
Proof.
  induction s as [|c s IH]; [reflexivity|].
  simpl. destruct (rstrip s) as [|a r] eqn:E.
  - destruct (is_space c) eqn:Hc; [reflexivity|]. simpl. now rewrite Hc.
  - change (rstrip (String c (String a r))) with
      (match rstrip (String a r) with
       | EmptyString => if is_space c then EmptyString else String c EmptyString
       | r0 => String c r0
       end).
    now rewrite IH.
Qed.

Lemma rstrip_head (c : ascii) (r : string) :
  is_space c = false -> exists r', rstrip (String c r) = String c r'.
Proof.
  intros Hc. simpl. destruct (rstrip r); [rewrite Hc|]; eauto.
Qed.

(** Stripping a stripped text changes nothing. *)
Lemma strip_idempotent (s : string) : strip (strip s) = strip s.
Proof.
  unfold strip. destruct (lstrip_head s) as [E | (c & r & E & Hc)]; rewrite E.
  - reflexivity.
  - destruct (rstrip_head c r Hc) as [r' E'].
    rewrite E'. simpl lstrip. rewrite Hc. rewrite <- E'.
    apply rstrip_idempotent.
Qed.

(** X1. Every passage [read_pdf_pages] returns is a non-empty text without
    whitespace at either end, and there are at most as many passages as the
    PDF has pages. *)
Theorem read_pdf_pages_clean fs pages :
  read_pdf_pages fs = Ok pages ->
  Forall (fun p => p <> EmptyString /\ strip p = p) pages /\
  exists raw, pdf fs = Some raw /\ (List.length pages <= List.length raw)%nat.
Proof.
  unfold read_pdf_pages. destruct (pdf fs) as [raw|]; [|discriminate].
  intros E. inversion E; subst. split.
  - apply Forall_forall. intros p Hp.
    apply filter_In in Hp as [Hin Hp]. apply truthy_true_iff in Hp.
    split; [exact Hp|].
    apply in_map_iff in Hin as (x & <- & _). apply strip_idempotent.
  - exists raw. split; [reflexivity|].
    rewrite <- (length_map (fun p => strip (or_empty p)) raw).
    apply filter_length_le.
Qed.

Lemma read_pdf_pages_clean_witness :
  Forall (fun p => p <> EmptyString /\ strip p = p) faq_pages /\
  exists raw, pdf stale_files = Some raw /\ (List.length faq_pages <= List.length raw)%nat.
Proof.
  apply (read_pdf_pages_clean stale_files faq_pages). reflexivity.
Defined.

(** X2. A successful build leaves both artifacts on disk so that the next
    start, the model loading as it did for the build, loads exactly what
    was built, without touching the files; the index holds one vector per
    passage, the embedding of that passage, and there is at least one
    passage. *)
Theorem build_then_load faiss hub fs index pages model fs' :
  build_index_from_pdf faiss hub fs = (Ok (index, pages, model), fs') ->
  load_index faiss hub fs' = Ok (Some (index, pages, model)) /\
  build_or_load_index faiss hub fs' = (Ok (index, pages, model), fs') /\
  xb index = map model pages /\
  ntotal index = Z.of_nat (List.length pages) /\
  pages <> [] /\
  pdf fs' = pdf fs.
Proof.
  unfold build_index_from_pdf.
  destruct (read_pdf_pages fs) as [ps|e]; [|discriminate].
  destruct ps as [|p ps]; [discriminate|].
  destruct hub as [m|e]; [|discriminate].
  intros E. inversion E; subst. unfold build_or_load_index, load_index, ntotal.
  cbn [faiss_index_faiss texts_pkl pdf xb build_index].
  repeat split; try discriminate.
  simpl List.length. now rewrite length_map.
Qed.

Lemma build_then_load_witness :
  load_index toy_faiss (Ok toy_encoder)
      (snd (build_index_from_pdf toy_faiss (Ok toy_encoder) no_files))
    = Ok (Some ({| d := 1; xb := [[36]; [33]]; lib := toy_faiss |},
                faq_pages, toy_encoder)) /\
  build_or_load_index toy_faiss (Ok toy_encoder)
      (snd (build_index_from_pdf toy_faiss (Ok toy_encoder) no_files))
    = (Ok ({| d := 1; xb := [[36]; [33]]; lib := toy_faiss |}, faq_pages, toy_encoder),
       snd (build_index_from_pdf toy_faiss (Ok toy_encoder) no_files)) /\
  xb {| d := 1; xb := [[36]; [33]]; lib := toy_faiss |} = map toy_encoder faq_pages /\
  ntotal {| d := 1; xb := [[36]; [33]]; lib := toy_faiss |}
    = Z.of_nat (List.length faq_pages) /\
  faq_pages <> [] /\
  pdf (snd (build_index_from_pdf toy_faiss (Ok toy_encoder) no_files)) = pdf no_files.
Proof.
  apply (build_then_load toy_faiss (Ok toy_encoder) no_files). reflexivity.
Defined.

(** X3. When no artifact is on disk and no page of the PDF holds text,
    startup fails with the [RuntimeError] and writes nothing. *)
Theorem blank_pdf_is_fatal faiss hub fs raw :
  faiss_index_faiss fs = Absent \/ texts_pkl fs = Absent ->
  pdf fs = Some raw ->
  Forall (fun p => whitespace_only (or_empty p) = true) raw ->
  build_or_load_index faiss hub fs
  = (Raise (RuntimeError "No text extracted from PDF. Check PDF path or contents."), fs).
Proof.
  intros Hmiss Hpdf Hblank.
  assert (Hload : load_index faiss hub fs = Ok None).
  { unfold load_index. destruct Hmiss as [-> | ->]; [reflexivity|].
    now destruct (faiss_index_faiss fs). }
  unfold build_or_load_index. rewrite Hload.
  unfold build_index_from_pdf, read_pdf_pages. rewrite Hpdf.
  assert (Hnone : filter truthy (map (fun p => strip (or_empty p)) raw) = []).
  { clear Hpdf. induction Hblank as [|p raw Hp _ IH]; [reflexivity|].
    simpl. apply strip_empty_iff in Hp. rewrite Hp. exact IH. }
  now rewrite Hnone.
Qed.

Lemma blank_pdf_is_fatal_witness :
  build_or_load_index toy_faiss (Ok toy_encoder) blank_files
  = (Raise (RuntimeError "No text extracted from PDF. Check PDF path or contents."),
     blank_files).
Proof.
  apply (blank_pdf_is_fatal toy_faiss (Ok toy_encoder) blank_files
           [None; Some "   "; Some EmptyString]).
  - left. reflexivity.
  - reflexivity.
  - repeat constructor.
Defined.

Lemma similarity_search_returns_k_witness :
  exists results,
    similarity_search (build_index toy_faiss (map toy_encoder faq_pages)) faq_pages
      toy_encoder "Do you ship abroad?" 5 = Ok results /\
    Z.of_nat (List.length results) = 5.
Proof.
  apply (similarity_search_returns_k toy_faiss faq_pages toy_encoder
           "Do you ship abroad?" 5).
  - discriminate.
  - split; [reflexivity | discriminate].
  - reflexivity.
Defined.


(** Large distances are ranked as the library rounds them: two vectors at
    squared distances 16793605 and 16793604 from the query, both rounded
    to the float 16793604, come back in the order of their labels, the
    farther one first. *)
Example rounded_distances_tie :
  let index := {| d := 2; xb := [[4098; 1]; [4098; 0]]; lib := small_faiss |} in
  search index [0; 0] 2 = Ok ([16793604; 16793604], [0; 1]) /\
  l2_sqr [0; 0] [4098; 1] = 16793605 /\
  l2_sqr [0; 0] [4098; 0] = 16793604.
Proof. repeat split. Qed.

Lemma page_at_In (pages : list string) idx :
  - Z.of_nat (List.length pages) <= idx < Z.of_nat (List.length pages) ->
  In (page_at pages idx) pages.
Proof.
  intros H. unfold page_at. apply nth_In.
  destruct (Z.ltb_spec idx 0); lia.
Qed.

(** The loop over labels that are [-1] or above, as faiss returns them:
    it never raises on a non-empty passage list and only collects
    passages. *)
Lemma collect_any_labels pages I0 results :
  pages <> [] ->
  Forall (fun idx => -1 <= idx) I0 ->
  exists found,
    collect pages I0 results = Ok (results ++ found) /\
    Forall (fun p => In p pages) found /\
    (List.length found <= List.length I0)%nat.
Proof.
  intros Hpages H. revert results.
  assert (Hn : (0 < List.length pages)%nat) by (destruct pages; simpl; [congruence|lia]).
  induction H as [|idx I0 Hidx _ IH]; intros results.
  - exists []. simpl. rewrite app_nil_r. repeat split; auto.
  - simpl. destruct (Z.ltb_spec idx (Z.of_nat (List.length pages))) as [Hlt|Hge].
    + rewrite getitem_in_range by lia.
      destruct (IH (results ++ [page_at pages idx])) as (found & E & Hin & Hlen).
      exists (page_at pages idx :: found). rewrite E, <- app_assoc.
      split; [reflexivity|]. split; [|simpl; lia].
      constructor; [apply page_at_In; lia | exact Hin].
    + destruct (IH results) as (found & E & Hin & Hlen).
      exists found. repeat split; auto.
Qed.

(** X6. Whatever index is loaded -- built from the passages or left over
    from another document -- as long as its dimension is that of the query
    embedding and [k] lies between 1 and the largest the process can
    serve, a search over a non-empty passage list does not raise, returns
    at most [k] texts, and every text it returns is one of the passages. *)
Theorem similarity_search_any_index index pages model query k :
  pages <> [] ->
  0 < k <= results_limit (lib index) ->
  List.length (model query) = d index ->
  exists results,
    similarity_search index pages model query k = Ok results /\
    Forall (fun p => In p pages) results /\
    Z.of_nat (List.length results) <= k.
Proof.
  intros Hpages Hk Hdim. unfold similarity_search.
  rewrite (search_ok index (model query) k Hdim Hk). cbv zeta.
  set (found := firstn (Z.to_nat k) (ranked index (model query))).
  destruct (collect_any_labels pages
              (map snd found ++ repeat (-1) (Z.to_nat k - List.length found)) []
              Hpages) as (results & E & Hin & Hlen).
  { apply Forall_app. split.
    - apply Forall_forall. intros l Hl.
      apply in_map_iff in Hl as ([dist l'] & <- & Hl).
      apply In_firstn, ranked_hits in Hl as [Hr _]. simpl. lia.
    - apply Forall_forall. intros l Hl. apply repeat_spec in Hl. lia. }
  exists results. split; [exact E|]. split; [exact Hin|].
  rewrite length_app, length_map, repeat_length in Hlen.
  pose proof (firstn_le_length (Z.to_nat k) (ranked index (model query))) as Hfound.
  fold found in Hfound. lia.
Qed.

Lemma similarity_search_any_index_witness :
  exists results,
    similarity_search stale_index faq_pages toy_encoder "0123456789" 3 = Ok results /\
    Forall (fun p => In p faq_pages) results /\
    Z.of_nat (List.length results) <= 3.
Proof.
  apply (similarity_search_any_index stale_index faq_pages toy_encoder "0123456789" 3).
  - discriminate.
  - split; [reflexivity | discriminate].
  - reflexivity.
Defined.

(** Outside those bounds the search raises, and so does
    [similarity_search]: a query of another dimension, a [k] below 1, a
    [k] the process cannot allocate. *)
Lemma search_refuses index q k :
  (List.length q <> d index \/ k <= 0 -> search index q k = Raise AssertionError) /\
  (List.length q = d index -> results_limit (lib index) < k ->
   search index q k = Raise ValueError \/ search index q k = Raise MemoryError).
Proof.
  unfold search, results_limit.
  assert (H60 : 2 ^ 60 = 1152921504606846976) by reflexivity.
  assert (H61 : 2 ^ 61 = 2305843009213693952) by reflexivity.
  rewrite H60, H61. split.
  - intros [Hdim | Hk].
    + apply Nat.eqb_neq in Hdim. now rewrite Hdim.
    + destruct (Nat.eqb (List.length q) (d index)); [|reflexivity]. cbn [negb].
      destruct (Z.ltb_spec 0 k); [lia|reflexivity].
  - intros Hdim Hk. rewrite Hdim, Nat.eqb_refl. cbn [negb].
    destruct (Z.ltb_spec 0 k); [|lia]. cbn [negb].
    destruct (Z.leb_spec 2305843009213693952 k); [now left|].
    destruct (Z.ltb_spec (Z.pos (k_max (lib index))) k); [now right|].
    destruct (Z.leb_spec 1152921504606846976 k); [now left|lia].
Qed.

Example search_refuses_examples :
  similarity_search faq_index faq_pages toy_encoder "Do you ship abroad?" 0
    = Raise AssertionError /\
  similarity_search faq_index faq_pages toy_encoder "Do you ship abroad?" (2 ^ 31)
    = Raise MemoryError /\
  similarity_search faq_index faq_pages toy_encoder "Do you ship abroad?" (2 ^ 63)
    = Raise ValueError /\
  similarity_search (build_index toy_faiss [[1; 2]]) faq_pages toy_encoder
      "Do you ship abroad?" 1
    = Raise AssertionError.
Proof. repeat split. Qed.











(* ===================================================================== *)
(** ** Failures during a chat request *)
(* ===================================================================== *)

(** X8. When the model call of [/api/chat] raises, the request fails with
    a 500 error carrying that exception; the user message saved before the
    call stays in the database and no assistant message is added. *)
Theorem chat_generation_failure g req u w sid w1 results e :
  strip (user req) <> EmptyString ->
  resolve_session req u (strip (user req)) w = (Ok sid, w1) ->
  similarity_search (index g) (pages g) (embed_model g) (strip (user req)) (top_k req)
    = Ok results ->
  let q := strip (user req) in
  let recent := recent_messages sid 5 (snd (save_message sid "user" q w1)) in
  let prompt := spec_prompt recent results q in
  ollama_generate g prompt = Raise e ->
  exists w',
    chat g req u w = (Raise (HTTPException 500 (DetailError e)), w') /\
    chat_messages (db w') = chat_messages (db w) ++ [user_row sid q w1] /\
    calls w' = calls w ++ [CallSearch q (top_k req); CallGenerate prompt].
Proof.
  intros Hq Hres Hsearch q recent prompt Hgen.
  destruct (resolve_session_world _ _ _ _ _ _ Hres) as (Hmsgs & Hcalls & _).
  rewrite (chat_resolved g req u w sid w1 Hq Hres). cbv zeta.
  rewrite Hsearch, build_prompt_layout. fold q recent prompt. rewrite Hgen.
  eexists. split; [reflexivity|]. unfold user_row. simpl.
  rewrite Hmsgs, Hcalls, <- app_assoc. split; reflexivity.
Qed.

Lemma chat_generation_failure_witness :
  exists w',
    chat broken_globals followup_request bob bob_world
      = (Raise (HTTPException 500 (DetailError (ServiceError "connection refused"))), w') /\
    chat_messages (db w')
      = chat_messages (db bob_world)
        ++ [user_row 7 "And how long do returns take?" bob_world] /\
    calls w'
      = calls bob_world
        ++ [CallSearch "And how long do returns take?" 1;
            CallGenerate
              (spec_prompt
                 (recent_messages 7 5
                    (snd (save_message 7 "user" "And how long do returns take?" bob_world)))
                 ["Shipping takes 3-5 business days."]
                 "And how long do returns take?")].
Proof.
  apply (chat_generation_failure broken_globals followup_request bob bob_world 7
           bob_world ["Shipping takes 3-5 business days."]
           (ServiceError "connection refused")).
  - discriminate.
  - reflexivity.
  - reflexivity.
  - reflexivity.
Defined.

(** X9. When the search raises, [/api/chat] answers with a 500 error
    carrying the exception and [/api/chat/stream] lets it through; on both
    paths the session is resolved and the user message saved by then, and
    the model is never called. *)
Theorem search_failure g req u w sid w1 e :
  strip (user req) <> EmptyString ->
  resolve_session req u (strip (user req)) w = (Ok sid, w1) ->
  similarity_search (index g) (pages g) (embed_model g) (strip (user req)) (top_k req)
    = Raise e ->
  let q := strip (user req) in
  exists w',
    chat g req u w = (Raise (HTTPException 500 (DetailError e)), w') /\
    serve_chat_stream g req u w = (Raise e, w') /\
    chat_messages (db w') = chat_messages (db w) ++ [user_row sid q w1] /\
    calls w' = calls w ++ [CallSearch q (top_k req)].
Proof.
  intros Hq Hres Hsearch q.
  destruct (resolve_session_world _ _ _ _ _ _ Hres) as (Hmsgs & Hcalls & _).
  rewrite (chat_resolved g req u w sid w1 Hq Hres).
  rewrite (chat_stream_resolved g req u w sid w1 Hq Hres). cbv zeta.
  rewrite Hsearch.
  eexists. split; [reflexivity|]. split; [reflexivity|]. unfold user_row. simpl.
  rewrite Hmsgs, Hcalls. split; reflexivity.
Qed.

Lemma search_failure_witness :
  exists w',
    chat faq_globals zero_k_request bob bob_world
      = (Raise (HTTPException 500 (DetailError AssertionError)), w') /\
    serve_chat_stream faq_globals zero_k_request bob bob_world
      = (Raise AssertionError, w') /\
    chat_messages (db w')
      = chat_messages (db bob_world) ++ [user_row 7 "Do you ship abroad?" bob_world] /\
    calls w' = calls bob_world ++ [CallSearch "Do you ship abroad?" 0].
Proof.
  apply (search_failure faq_globals zero_k_request bob bob_world 7 bob_world
           AssertionError).
  - discriminate.
  - reflexivity.
  - reflexivity.
Defined.

(* ===================================================================== *)
(** ** The stream *)
(* ===================================================================== *)

Lemma event_generator_messages g prompt sid w :
  let pieces := filter truthy (map or_empty (fst (ollama_generate_stream g prompt))) in
  chat_messages (db (snd (event_generator g prompt sid w)))
  = chat_messages (db w)
    ++ match snd (ollama_generate_stream g prompt) with
       | Some _ => []
       | None =>
           [ {| m_id := fresh_id (map m_id (chat_messages (db w)));
                m_session_id := sid;
                m_role := "assistant";
                m_content := strip (join EmptyString pieces);
                m_timestamp := now w |} ]
       end.
Proof.
  unfold event_generator.
  destruct (ollama_generate_stream g prompt) as [chunks [err|]]; simpl.
  - now rewrite app_nil_r.
  - reflexivity.
Qed.

(** X10. What the stream leaves in the database once the session is
    resolved and the search has returned: after the user message, the
    assistant message whose content is the stripped concatenation of the
    non-empty pieces when the model's stream ends normally, and nothing
    more when the stream fails, however many pieces were sent before. *)
Theorem stream_persistence g req u w sid w1 results :
  strip (user req) <> EmptyString ->
  resolve_session req u (strip (user req)) w = (Ok sid, w1) ->
  similarity_search (index g) (pages g) (embed_model g) (strip (user req)) (top_k req)
    = Ok results ->
  let q := strip (user req) in
  let recent := recent_messages sid 5 (snd (save_message sid "user" q w1)) in
  let prompt := spec_prompt recent results q in
  let pieces := filter truthy (map or_empty (fst (ollama_generate_stream g prompt))) in
  let saved := chat_messages (db (snd (serve_chat_stream g req u w))) in
  match snd (ollama_generate_stream g prompt) with
  | Some _ => saved = chat_messages (db w) ++ [user_row sid q w1]
  | None =>
      exists m,
        saved = chat_messages (db w) ++ [user_row sid q w1; m] /\
        m_session_id m = sid /\
        m_role m = "assistant" /\
        m_content m = strip (join EmptyString pieces)
  end.
Proof.
  intros Hq Hres Hsearch q recent prompt pieces saved. unfold saved.
  destruct (resolve_session_world _ _ _ _ _ _ Hres) as (Hmsgs & _ & _).
  rewrite (chat_stream_resolved g req u w sid w1 Hq Hres). cbv zeta.
  rewrite Hsearch, build_prompt_layout.
  change (recent_messages sid 5
            (snd (log (CallSearch (strip (user req)) (top_k req))
                    (snd (save_message sid "user" (strip (user req)) w1)))))
    with recent.
  fold q prompt.
  with_generator event_generator_messages.
  cbv zeta. cbn [snd]. intros ->. fold pieces.
  destruct (snd (ollama_generate_stream g prompt)) as [err|]; unfold user_row; simpl.
  - rewrite Hmsgs, app_nil_r. reflexivity.
  - eexists. rewrite Hmsgs, <- app_assoc. repeat split.
Qed.

Lemma stream_persistence_witness :
  chat_messages (db (snd (serve_chat_stream broken_globals followup_request bob bob_world)))
  = chat_messages (db bob_world) ++ [user_row 7 "And how long do returns take?" bob_world].
Proof.
  apply (stream_persistence broken_globals followup_request bob bob_world 7 bob_world
           ["Shipping takes 3-5 business days."]).
  - discriminate.
  - reflexivity.
  - reflexivity.
Defined.

Lemma chat_stream_events_witness :
  fst (serve_chat_stream broken_globals followup_request bob bob_world)
  = Ok [ ("data: Par" ++ nl ++ nl)%string;
         ("event: error" ++ nl ++ "data: connection lost" ++ nl ++ nl)%string ].
Proof.
  apply (chat_stream_events broken_globals followup_request bob bob_world 7 bob_world
           ["Shipping takes 3-5 business days."]).
  - discriminate.
  - reflexivity.
  - reflexivity.
Defined.

(* ===================================================================== *)
(** ** Sessions and ownership in the chat handlers *)
(* ===================================================================== *)

(** X11. A session id of [0] is read as no session id: on both paths the
    request is handled exactly as the same request without one, so a new
    session is created for it. *)
Theorem session_id_zero_is_none g req u w :
  session_id req = Some 0 ->
  let anonymous := {| user := user req; top_k := top_k req; session_id := None |} in
  chat g req u w = chat g anonymous u w /\
  serve_chat_stream g req u w = serve_chat_stream g anonymous u w.
Proof.
  intros H anonymous.
  assert (R : forall q, resolve_session req u q = resolve_session anonymous u q).
  { intros q. unfold resolve_session. rewrite H. reflexivity. }
  split.
  - unfold chat, chat_try. cbn [user top_k anonymous].
    destruct (negb (truthy (strip (user req)))); [reflexivity|].
    now rewrite R.
  - unfold serve_chat_stream, chat_stream. cbn [user top_k anonymous].
    destruct (negb (truthy (strip (or_empty (Some (user req)))))); [reflexivity|].
    now rewrite R.
Qed.

Lemma session_id_zero_is_none_witness :
  chat faq_globals zero_id_request bob bob_world
    = chat faq_globals
        {| user := "Do you ship abroad?"; top_k := 1; session_id := None |}
        bob bob_world /\
  serve_chat_stream faq_globals zero_id_request bob bob_world
    = serve_chat_stream faq_globals
        {| user := "Do you ship abroad?"; top_k := 1; session_id := None |}
        bob bob_world.
Proof.
  apply (session_id_zero_is_none faq_globals zero_id_request bob bob_world).
  reflexivity.
Defined.

Lemma resolve_session_given req u q w sid r w1 :
  session_id req = Some sid ->
  sid <> 0 ->
  resolve_session req u q w = (r, w1) ->
  w1 = w /\ (r = Ok sid /\ owns u sid w \/ r = Raise NOT_FOUND).
Proof.
  intros Hreq Hsid. unfold resolve_session, no_session_id. rewrite Hreq.
  destruct (Z.eqb_spec sid 0) as [|_]; [contradiction|].
  unfold bind, query_owned_session, ret, raise.
  destruct (find _ _) as [s|] eqn:Hfind; intros E; inversion E; subst.
  - split; [reflexivity|]. left. split; [reflexivity|].
    apply find_some in Hfind as [Hin Hs].
    apply andb_true_iff in Hs as [H1 H2]. apply Z.eqb_eq in H1, H2.
    now exists s.
  - split; [reflexivity|]. now right.
Qed.

(** X12. A chat request that names a session never changes the sessions
    table, whatever its outcome on either path: neither the title nor
    [updated_at] of the session is touched by a new exchange. *)
Theorem chat_keeps_sessions g req u w sid :
  session_id req = Some sid ->
  sid <> 0 ->
  chat_sessions (db (snd (chat g req u w))) = chat_sessions (db w) /\
  chat_sessions (db (snd (serve_chat_stream g req u w))) = chat_sessions (db w).
Proof.
  intros Hreq Hsid.
  destruct (string_dec (strip (user req)) EmptyString) as [Hempty | Hq].
  { destruct (blank_question g req u w Hempty) as [-> ->]. now split. }
  destruct (resolve_session req u (strip (user req)) w) as [r w1] eqn:Hres.
  destruct (resolve_session_given _ _ _ _ _ _ _ Hreq Hsid Hres) as [-> [[-> _] | ->]].
  - exact (sessions_after_resolution g req u w sid w Hq Hres).
  - destruct (chat_unresolved g req u w _ w Hq Hres) as [-> ->]. now split.
Qed.

Lemma chat_keeps_sessions_witness :
  chat_sessions (db (snd (chat faq_globals followup_request bob bob_world)))
    = chat_sessions (db bob_world) /\
  chat_sessions (db (snd (serve_chat_stream faq_globals followup_request bob bob_world)))
    = chat_sessions (db bob_world).
Proof.
  apply (chat_keeps_sessions faq_globals followup_request bob bob_world 7).
  - reflexivity.
  - discriminate.
Defined.

Lemma resolve_session_owned req u q w sid w1 :
  resolve_session req u q w = (Ok sid, w1) -> owns u sid w1.
Proof.
  unfold resolve_session, bind, ret, raise, query_owned_session, create_session.
  destruct (no_session_id (session_id req)).
  - intros E. inversion E; subst. eexists. split.
    + cbn [db chat_sessions]. apply in_or_app. right. left. reflexivity.
    + split; reflexivity.
  - destruct (find _ _) as [s|] eqn:Hfind; intros E; inversion E; subst.
    apply find_some in Hfind as [Hin Hs].
    apply andb_true_iff in Hs as [H1 H2]. apply Z.eqb_eq in H1, H2.
    now exists s.
Qed.

(** The messages either handler adds once the session is resolved: the
    user message and at most one more, all in that session. *)
Lemma handler_messages g req u w sid w1 :
  strip (user req) <> EmptyString ->
  resolve_session req u (strip (user req)) w = (Ok sid, w1) ->
  forall w',
    w' = snd (chat g req u w) \/ w' = snd (serve_chat_stream g req u w) ->
    exists added,
      chat_messages (db w') = chat_messages (db w) ++ added /\
      Forall (fun m => m_session_id m = sid) added /\
      (1 <= List.length added <= 2)%nat.
Proof.
  intros Hq Hres w' Hw'.
  destruct (resolve_session_world _ _ _ _ _ _ Hres) as (Hmsgs & _ & _).
  destruct Hw' as [-> | ->].
  - rewrite (chat_resolved g req u w sid w1 Hq Hres). cbv zeta.
    destruct (similarity_search _ _ _ _ _) as [results|e].
    + destruct (ollama_generate g _) as [response|e]; simpl;
        rewrite Hmsgs, <- ?app_assoc; eexists; (split; [reflexivity|]);
        split; [repeat constructor | simpl; lia | repeat constructor | simpl; lia].
    + simpl. rewrite Hmsgs. eexists. split; [reflexivity|].
      split; [repeat constructor | simpl; lia].
  - rewrite (chat_stream_resolved g req u w sid w1 Hq Hres). cbv zeta.
    destruct (similarity_search _ _ _ _ _) as [results|e].
    + with_generator event_generator_messages.
      cbv zeta. cbn [snd]. intros ->.
      destruct (snd (ollama_generate_stream g _)); simpl;
        rewrite Hmsgs, <- ?app_assoc; eexists; (split; [reflexivity|]);
        split; [repeat constructor | simpl; lia | repeat constructor | simpl; lia].
    + simpl. rewrite Hmsgs. eexists. split; [reflexivity|].
      split; [repeat constructor | simpl; lia].
Qed.

(** X13. Whatever the request and its outcome, the chat handlers only add
    messages, and every message they add belongs to a session that the
    requesting user owns. *)
Theorem chat_writes_only_own_sessions g req u w w' :
  w' = snd (chat g req u w) \/ w' = snd (serve_chat_stream g req u w) ->
  exists added,
    chat_messages (db w') = chat_messages (db w) ++ added /\
    Forall (fun m => owns u (m_session_id m) w') added.
Proof.
  intros Hw'.
  destruct (string_dec (strip (user req)) EmptyString) as [Hempty | Hq].
  { destruct (blank_question g req u w Hempty) as [Ec Es].
    exists []. rewrite app_nil_r.
    destruct Hw' as [-> | ->]; [rewrite Ec | rewrite Es]; now split. }
  destruct (resolve_session req u (strip (user req)) w) as [[sid | e] w1] eqn:Hres.
  - destruct (handler_messages g req u w sid w1 Hq Hres w' Hw')
      as (added & Hadd & Hsid & _).
    exists added. split; [exact Hadd|].
    pose proof (resolve_session_owned _ _ _ _ _ _ Hres) as (s & Hin & Hid & Hu).
    destruct (sessions_after_resolution g req u w sid w1 Hq Hres) as [Hc Hs].
    eapply Forall_impl; [|exact Hsid]. intros m ->.
    exists s. split; [|now split].
    destruct Hw' as [-> | ->]; [rewrite Hc | rewrite Hs]; exact Hin.
  - destruct (chat_unresolved g req u w e w1 Hq Hres) as [Ec Es].
    assert (Hw1 : w1 = w).
    { revert Hres. unfold resolve_session, bind, ret, raise, query_owned_session,
        create_session.
      destruct (no_session_id (session_id req)); [discriminate|].
      destruct (find _ _); intros E; now inversion E. }
    subst w1. exists []. rewrite app_nil_r.
    destruct Hw' as [-> | ->]; [rewrite Ec | rewrite Es]; now split.
Qed.

Lemma chat_writes_only_own_sessions_witness :
  exists added,
    chat_messages (db (snd (chat faq_globals short_request alice bob_world)))
      = chat_messages (db bob_world) ++ added /\
    Forall (fun m => owns alice (m_session_id m)
                       (snd (chat faq_globals short_request alice bob_world))) added.
Proof.
  apply (chat_writes_only_own_sessions faq_globals short_request alice bob_world).
  left. reflexivity.
Defined.

(* ===================================================================== *)
(** ** From the PDF to the reply *)
(* ===================================================================== *)

Lemma whitespace_only_app (a b : string) :
  whitespace_only (a ++ b) = whitespace_only a && whitespace_only b.
Proof.
  induction a as [|c a IH]; simpl; [reflexivity|].
  now rewrite IH, andb_assoc.
Qed.

Lemma stripped_not_blank (p : string) :
  p <> EmptyString -> strip p = p -> whitespace_only p = false.
Proof.
  intros Hp Hs. destruct (whitespace_only p) eqn:E; [|reflexivity].
  apply strip_empty_iff in E. congruence.
Qed.

(** Joined passages that start with a stripped, non-empty one do not strip
    to the empty text. *)
Lemma format_context_not_blank p results :
  p <> EmptyString -> strip p = p ->
  (strip (format_context (p :: results)) =? EmptyString)%string = false.
Proof.
  intros Hp Hs. apply String.eqb_neq. intros E.
  apply strip_empty_iff in E.
  pose proof (stripped_not_blank p Hp Hs) as Hb.
  unfold format_context, join in E. destruct results as [|r results].
  - simpl in E. congruence.
  - cbn [String.concat] in E. rewrite whitespace_only_app, Hb in E. discriminate.
Qed.

Lemma build_index_from_pdf_ok faiss hub fs index pages model fs' :
  build_index_from_pdf faiss hub fs = (Ok (index, pages, model), fs') ->
  index = build_index faiss (map model pages) /\
  pages <> [] /\
  Forall (fun p => p <> EmptyString /\ strip p = p) pages.
Proof.
  unfold build_index_from_pdf, read_pdf_pages.
  destruct (pdf fs) as [raw|]; [|discriminate].
  destruct (filter truthy (map (fun p => strip (or_empty p)) raw)) as [|p ps] eqn:E;
    [discriminate|].
  destruct hub as [m|e]; [|discriminate].
  intros H. inversion H; subst. split; [reflexivity|]. split; [discriminate|].
  rewrite <- E. apply Forall_forall. intros x Hx.
  apply filter_In in Hx as [Hin Hx]. apply truthy_true_iff in Hx.
  split; [exact Hx|].
  apply in_map_iff in Hin as (y & <- & _). apply strip_idempotent.
Qed.

Lemma similarity_search_built_results faiss pages model query k :
  pages <> [] ->
  0 < k <= results_limit faiss ->
  List.length (model query) = d (build_index faiss (map model pages)) ->
  exists results,
    similarity_search (build_index faiss (map model pages)) pages model query k
      = Ok results /\
    Z.of_nat (List.length results) = k /\
    Forall (fun p => In p pages) results.
Proof.
  intros Hpages Hk Hdim.
  rewrite (similarity_search_built faiss pages model query k Hpages Hk Hdim). cbv zeta.
  eexists. split; [reflexivity|]. split.
  - rewrite length_map, length_app, length_map, repeat_length.
    pose proof (firstn_le_length (Z.to_nat k)
                  (ranked (build_index faiss (map model pages)) (model query))).
    lia.
  - assert (Hn : (0 < List.length pages)%nat) by (destruct pages; simpl; [congruence|lia]).
    apply Forall_forall. intros p Hp.
    apply in_map_iff in Hp as (l & <- & Hl). apply page_at_In.
    apply in_app_or in Hl as [Hl | Hl].
    + apply in_map_iff in Hl as ([dist l'] & <- & Hin).
      apply In_firstn, ranked_hits in Hin as [Hr _].
      unfold ntotal in Hr. cbn [xb build_index] in Hr. rewrite length_map in Hr.
      simpl. lia.
    + apply repeat_spec in Hl. lia.
Qed.

(** X14. When the index, the passages and the model come from a build of
    the PDF and [top_k] lies between 1 and the largest number of results
    the process can serve, [/api/chat] never replaces the model's answer
    by the fallback sentence: the search returns [top_k] passages of the
    PDF, and the reply is the stripped output of the model together with
    these passages as [sources_used] (or the 500 error when the model call
    raises). *)
Theorem chat_over_built_index faiss hub g req u w sid w1 fs fs' :
  build_index_from_pdf faiss hub fs = (Ok (index g, pages g, embed_model g), fs') ->
  fixed_dimension (embed_model g) ->
  0 < top_k req <= results_limit faiss ->
  strip (user req) <> EmptyString ->
  resolve_session req u (strip (user req)) w = (Ok sid, w1) ->
  exists results prompt,
    Z.of_nat (List.length results) = top_k req /\
    Forall (fun p => In p (pages g)) results /\
    fst (chat g req u w)
    = match ollama_generate g prompt with
      | Ok response => Ok (ReplyFull (strip (or_empty response)) results sid)
      | Raise e => Raise (HTTPException 500 (DetailError e))
      end.
Proof.
  intros Hbuild Hdim Hk Hq Hres.
  destruct (build_index_from_pdf_ok _ _ _ _ _ _ _ Hbuild) as (Hindex & Hpages & Hclean).
  assert (Hd : List.length (embed_model g (strip (user req)))
               = d (build_index faiss (map (embed_model g) (pages g)))).
  { unfold build_index. cbn [d]. destruct (pages g) as [|p0 ps]; [congruence|]. apply Hdim. }
  destruct (similarity_search_built_results faiss (pages g) (embed_model g)
              (strip (user req)) (top_k req) Hpages Hk Hd)
    as (results & Hsearch & Hlen & Hin).
  assert (Hsearch' : similarity_search (index g) (pages g) (embed_model g)
                       (strip (user req)) (top_k req) = Ok results)
    by (rewrite Hindex; exact Hsearch).
  rewrite (chat_resolved g req u w sid w1 Hq Hres). cbv zeta. rewrite Hsearch'.
  exists results.
  exists (build_prompt
            (format_messages_for_llm
               (recent_messages sid 5
                  (snd (save_message sid "user" (strip (user req)) w1))))
            (format_context results) (strip (user req))).
  split; [exact Hlen|]. split; [exact Hin|].
  destruct results as [|p results]; [simpl in Hlen; lia|].
  assert (Hp : p <> EmptyString /\ strip p = p).
  { rewrite Forall_forall in Hclean. apply Hclean.
    now apply Forall_inv in Hin. }
  rewrite (format_context_not_blank p results (proj1 Hp) (proj2 Hp)).
  destruct (ollama_generate g _); reflexivity.
Qed.

Lemma chat_over_built_index_witness :
  exists results prompt,
    Z.of_nat (List.length results) = 1 /\
    Forall (fun p => In p faq_pages) results /\
    fst (chat faq_globals followup_request bob bob_world)
    = match paris_model prompt with
      | Ok response => Ok (ReplyFull (strip (or_empty response)) results 7)
      | Raise e => Raise (HTTPException 500 (DetailError e))
      end.
Proof.
  apply (chat_over_built_index toy_faiss (Ok toy_encoder) faq_globals followup_request
           bob bob_world 7 bob_world
           no_files (snd (build_index_from_pdf toy_faiss (Ok toy_encoder) no_files))).
  - reflexivity.
  - intros s t. reflexivity.
  - split; [reflexivity | discriminate].
  - discriminate.
  - reflexivity.
Defined.

(* ===================================================================== *)
(** ** Reading the history *)
(* ===================================================================== *)

Section SortByMore.
Context {A : Type} (key : A -> Z).

Lemma insert_by_snoc (x m : A) (l : list A) :
  key x <= key m -> insert_by key x (l ++ [m]) = insert_by key x l ++ [m].
Proof.
  intros Hx. induction l as [|y l IH]; simpl.
  - destruct (Z.leb_spec (key x) (key m)); [reflexivity|lia].
  - destruct (key x <=? key y); [reflexivity|]. now rewrite IH.
Qed.

(** A row whose key is not below any other key comes out last. *)
Lemma sort_by_snoc_greatest (l : list A) (m : A) :
  Forall (fun x => key x <= key m) l ->
  sort_by key (l ++ [m]) = sort_by key l ++ [m].
Proof.
  induction 1 as [|x l Hx Hl IH]; simpl; [reflexivity|].
  fold (sort_by key (l ++ [m])). fold (sort_by key l).
  rewrite IH. now apply insert_by_snoc.
Qed.

(** In an ascending list every row of a front part is at or below every
    row behind it. *)
Lemma ascending_app_le (l1 l2 : list A) (a b : A) :
  ascending key (l1 ++ l2) -> In a l1 -> In b l2 -> key a <= key b.
Proof.
  unfold ascending. induction l1 as [|x l1 IH]; simpl; [tauto|].
  intros Hs Ha Hb. apply StronglySorted_inv in Hs as [Hs Hx].
  destruct Ha as [-> | Ha]; [|now apply IH].
  rewrite Forall_forall in Hx. apply Hx, in_or_app. now right.
Qed.
End SortByMore.

Lemma owned_session_found u sid w :
  owns u sid w ->
  exists s,
    find (fun s => (s_id s =? sid) && (s_user_id s =? u_id u)) (chat_sessions (db w))
    = Some s.
Proof.
  intros (s & Hin & Hid & Hu).
  destruct (find _ _) as [s'|] eqn:E; [now exists s'|].
  eapply find_none in E; [|exact Hin].
  rewrite Hid, Hu, !Z.eqb_refl in E. discriminate.
Qed.

Lemma foreign_session_not_found u sid w :
  ~ owns u sid w ->
  find (fun s => (s_id s =? sid) && (s_user_id s =? u_id u)) (chat_sessions (db w))
  = None.
Proof.
  intros Hno. destruct (find _ _) as [s|] eqn:E; [|reflexivity].
  exfalso. apply Hno. apply find_some in E as [Hin Hs].
  apply andb_true_iff in Hs as [H1 H2]. apply Z.eqb_eq in H1, H2.
  now exists s.
Qed.

(** X15. The messages listing of a session answers its owner with every
    message of that session and no other, oldest first, and leaves the
    world as it is. *)
Theorem session_history isoformat sid u w :
  owns u sid w ->
  exists msgs,
    App.get_session_messages isoformat sid u w
      = (Ok (map (message_response isoformat) msgs), w) /\
    Permutation msgs (filter (fun m => m_session_id m =? sid) (chat_messages (db w))) /\
    ascending m_timestamp msgs.
Proof.
  intros Hown. destruct (owned_session_found u sid w Hown) as [s Hfind].
  unfold App.get_session_messages, bind, query_owned_session.
  rewrite Hfind.
  unfold ChatPersistence.get_session_messages, ret. eexists. split; [reflexivity|].
  split; [symmetry; apply sort_by_perm | apply sort_by_ascending].
Qed.

Lemma session_history_witness :
  exists msgs,
    App.get_session_messages iso 3 alice shared_world
      = (Ok (map (message_response iso) msgs), shared_world) /\
    Permutation msgs
      (filter (fun m => m_session_id m =? 3) (chat_messages (db shared_world))) /\
    ascending m_timestamp msgs.
Proof.
  apply (session_history iso 3 alice shared_world).
  eexists. split; [left; reflexivity|]. split; reflexivity.
Defined.

(** X16. The messages listing answers anyone who does not own a session
    with that id by the 404 error -- the same whether the session belongs
    to someone else or does not exist -- and reads nothing. *)
Theorem foreign_history_hidden isoformat sid u w :
  ~ owns u sid w ->
  App.get_session_messages isoformat sid u w = (Raise NOT_FOUND, w).
Proof.
  intros Hno. unfold App.get_session_messages, bind, query_owned_session.
  now rewrite (foreign_session_not_found u sid w Hno).
Qed.

Lemma not_owns_by_ids u sid w :
  forallb (fun s => negb ((s_id s =? sid) && (s_user_id s =? u_id u)))
    (chat_sessions (db w)) = true ->
  ~ owns u sid w.
Proof.
  intros H (s & Hin & Hid & Hu).
  rewrite forallb_forall in H. specialize (H s Hin).
  rewrite Hid, Hu, !Z.eqb_refl in H. discriminate.
Qed.

Lemma foreign_history_hidden_witness :
  App.get_session_messages iso 7 alice shared_world = (Raise NOT_FOUND, shared_world).
Proof.
  apply (foreign_history_hidden iso 7 alice shared_world).
  apply not_owns_by_ids. reflexivity.
Defined.

(** What a full reply of [/api/chat] tells about the run that gave it. *)
Lemma chat_full_reply g req u w reply sources sid w' :
  chat g req u w = (Ok (ReplyFull reply sources sid), w') ->
  exists w1 answer,
    strip (user req) <> EmptyString /\
    resolve_session req u (strip (user req)) w = (Ok sid, w1) /\
    (reply = answer \/ reply = FALLBACK) /\
    chat_sessions (db w') = chat_sessions (db w1) /\
    chat_messages (db w')
    = chat_messages (db w1)
      ++ [ user_row sid (strip (user req)) w1;
           {| m_id := fresh_id (map m_id (chat_messages (db w1)
                                            ++ [user_row sid (strip (user req)) w1]));
              m_session_id := sid;
              m_role := "assistant";
              m_content := answer;
              m_timestamp := now w1 + 1 |} ].
Proof.
  intros Hchat.
  destruct (string_dec (strip (user req)) EmptyString) as [Hempty | Hq].
  { destruct (blank_question g req u w Hempty) as [E _].
    rewrite E in Hchat. discriminate. }
  destruct (resolve_session req u (strip (user req)) w) as [[sid0 | e] w1] eqn:Hres.
  2: { destruct (chat_unresolved g req u w e w1 Hq Hres) as [E _].
       rewrite E in Hchat. discriminate. }
  rewrite (chat_resolved g req u w sid0 w1 Hq Hres) in Hchat. cbv zeta in Hchat.
  destruct (similarity_search _ _ _ _ _) as [results | e]; [|discriminate].
  destruct (ollama_generate g _) as [response | e]; [|discriminate].
  exists w1, (strip (or_empty response)).
  destruct (strip (format_context results) =? EmptyString)%string;
    inversion Hchat; subst; unfold user_row; simpl; rewrite <- app_assoc;
    repeat split; auto.
Qed.

(** X17. A chat request that got a full reply can be read back: in a
    world whose timestamps lie before the clock, the messages listing of
    the returned session then answers the requester with the earlier
    history of the session followed by the question and the stored
    answer, in this order. *)
Theorem chat_then_history g req u w reply sources sid w' isoformat :
  chat g req u w = (Ok (ReplyFull reply sources sid), w') ->
  stamped w ->
  exists history m_user m_assistant,
    fst (ChatPersistence.get_session_messages sid w) = Ok history /\
    App.get_session_messages isoformat sid u w'
      = (Ok (map (message_response isoformat) (history ++ [m_user; m_assistant])), w') /\
    (m_role m_user = "user" /\ m_content m_user = strip (user req)) /\
    (m_role m_assistant = "assistant" /\
     (reply = m_content m_assistant \/ reply = FALLBACK)).
Proof.
  intros Hchat Hst.
  destruct (chat_full_reply _ _ _ _ _ _ _ _ Hchat)
    as (w1 & answer & Hq & Hres & Hreply & Hsess & Hmsgs).
  destruct (resolve_session_world _ _ _ _ _ _ Hres) as (Hm1 & _ & Hnow).
  pose proof (resolve_session_owned _ _ _ _ _ _ Hres) as Hown.
  assert (Hown' : owns u sid w').
  { destruct Hown as (s & Hin & Hs). exists s. now rewrite Hsess. }
  destruct (owned_session_found u sid w' Hown') as [s Hfind].
  eexists. exists (user_row sid (strip (user req)) w1). eexists.
  split; [reflexivity|]. split.
  - unfold App.get_session_messages, bind, query_owned_session. rewrite Hfind.
    unfold ChatPersistence.get_session_messages, ret.
    rewrite Hmsgs, Hm1.
    change [user_row sid (strip (user req)) w1; ?m]
      with ([user_row sid (strip (user req)) w1] ++ [m]).
    rewrite !filter_app. cbn [filter user_row m_session_id].
    rewrite Z.eqb_refl. rewrite app_assoc.
    assert (Hold : Forall (fun m => m_timestamp m < now w1)
                     (filter (fun m => m_session_id m =? sid) (chat_messages (db w)))).
    { apply Forall_forall. intros m Hm. apply filter_In in Hm as [Hm _].
      unfold stamped in Hst. rewrite Forall_forall in Hst.
      specialize (Hst m Hm). lia. }
    rewrite sort_by_snoc_greatest.
    + rewrite sort_by_snoc_greatest.
      * rewrite <- app_assoc. reflexivity.
      * eapply Forall_impl; [|exact Hold]. simpl. intros; lia.
    + apply Forall_app. split.
      * eapply Forall_impl; [|exact Hold]. simpl. intros; lia.
      * repeat constructor. simpl. lia.
  - cbn [m_role m_content user_row]. repeat split. exact Hreply.
Qed.

Lemma chat_then_history_witness :
  exists history m_user m_assistant,
    fst (ChatPersistence.get_session_messages 7 bob_world) = Ok history /\
    App.get_session_messages iso 7 bob
      (snd (chat faq_globals followup_request bob bob_world))
      = (Ok (map (message_response iso) (history ++ [m_user; m_assistant])),
         snd (chat faq_globals followup_request bob bob_world)) /\
    (m_role m_user = "user" /\ m_content m_user = strip (user followup_request)) /\
    (m_role m_assistant = "assistant" /\
     ("Paris is the capital of France." = m_content m_assistant
      \/ "Paris is the capital of France." = FALLBACK)).
Proof.
  apply (chat_then_history faq_globals followup_request bob bob_world
           "Paris is the capital of France."
           ["Shipping takes 3-5 business days."] 7
           (snd (chat faq_globals followup_request bob bob_world)) iso).
  - reflexivity.
  - repeat constructor.
Defined.

(* ===================================================================== *)
(** ** The session endpoints *)
(* ===================================================================== *)

(** X18. The sessions listing answers a user with every session of that
    user and no session of anyone else, most recently updated first, and
    leaves the world as it is. *)
Theorem sessions_listing isoformat u w :
  exists sessions,
    get_chat_sessions isoformat u w
      = (Ok (map (session_response isoformat) sessions), w) /\
    Permutation sessions
      (filter (fun s => s_user_id s =? u_id u) (chat_sessions (db w))) /\
    (forall s, In s sessions <-> In s (chat_sessions (db w)) /\ s_user_id s = u_id u) /\
    ascending (fun s => - s_updated_at s) sessions.
Proof.
  unfold get_chat_sessions, bind, get_user_sessions, ret.
  eexists. split; [reflexivity|].
  pose proof (sort_by_perm (fun s => - s_updated_at s)
                (filter (fun s => s_user_id s =? u_id u) (chat_sessions (db w)))) as P.
  split; [symmetry; exact P|]. split; [|apply sort_by_ascending].
  intros s. split.
  - intros Hin. eapply Permutation_in in Hin; [|symmetry; exact P].
    apply filter_In in Hin as [Hin Hu]. split; [exact Hin | now apply Z.eqb_eq].
  - intros [Hin Hu]. eapply Permutation_in; [exact P|].
    apply filter_In. split; [exact Hin | now apply Z.eqb_eq].
Qed.

(** X19. A session created through [POST /api/chat/sessions] carries the
    requested title and, in a world whose sessions were all updated before
    the clock, heads the creator's sessions listing in front of the
    sessions listed before; the listing of every other user is unchanged. *)
Theorem created_session_listed_first isoformat data u w :
  stamped_sessions w ->
  exists r w1 before,
    create_chat_session isoformat data u w = (Ok r, w1) /\
    r_title r = title data /\
    get_chat_sessions isoformat u w = (Ok before, w) /\
    get_chat_sessions isoformat u w1 = (Ok (r :: before), w1) /\
    (forall v, u_id v <> u_id u ->
       fst (get_chat_sessions isoformat v w1) = fst (get_chat_sessions isoformat v w)).
Proof.
  intros Hst.
  unfold create_chat_session, get_chat_sessions, bind, create_session,
    get_user_sessions, ret.
  do 3 eexists. split; [reflexivity|]. split; [reflexivity|]. split; [reflexivity|].
  cbn [db chat_sessions fst snd]. split.
  - rewrite filter_app. cbn [filter s_user_id]. rewrite Z.eqb_refl.
    rewrite sort_by_snoc_least; [reflexivity|].
    apply Forall_forall. intros s Hs. apply filter_In in Hs as [Hs _].
    unfold stamped_sessions in Hst. rewrite Forall_forall in Hst.
    specialize (Hst s Hs). simpl. lia.
  - intros v Hv. rewrite filter_app. cbn [filter s_user_id].
    destruct (Z.eqb_spec (u_id u) (u_id v)) as [E|_]; [congruence|].
    now rewrite app_nil_r.
Qed.

Lemma created_session_listed_first_witness :
  exists r w1 before,
    create_chat_session iso {| title := "New Chat" |} alice shared_world = (Ok r, w1) /\
    r_title r = "New Chat" /\
    get_chat_sessions iso alice shared_world = (Ok before, shared_world) /\
    get_chat_sessions iso alice w1 = (Ok (r :: before), w1) /\
    (forall v, u_id v <> u_id alice ->
       fst (get_chat_sessions iso v w1) = fst (get_chat_sessions iso v shared_world)).
Proof.
  apply (created_session_listed_first iso {| title := "New Chat" |} alice shared_world).
  repeat constructor.
Defined.

Lemma remove_first_owned sid uid (l : list ChatSession) s :
  NoDup (map s_id l) ->
  In s l -> s_id s = sid -> s_user_id s = uid ->
  remove_first (fun s => (s_id s =? sid) && (s_user_id s =? uid)) l
  = filter (fun s => negb (s_id s =? sid)) l.
Proof.
  intros Hnd Hin Hid Hu. induction l as [|x l IH]; [destruct Hin|].
  simpl in Hnd. apply NoDup_cons_iff in Hnd as [Hx Hnd]. simpl.
  destruct (Z.eqb_spec (s_id x) sid) as [Ex | Nx]; simpl.
  - assert (Hfresh : filter (fun s => negb (s_id s =? sid)) l = l).
    { apply forallb_filter_id. apply forallb_forall. intros y Hy.
      destruct (Z.eqb_spec (s_id y) sid) as [Ey|]; [|reflexivity].
      exfalso. apply Hx. rewrite Ex, <- Ey. now apply in_map. }
    destruct Hin as [-> | Hin].
    + rewrite Hu, Z.eqb_refl. simpl. now rewrite Hfresh.
    + exfalso. apply Hx. rewrite Ex, <- Hid. now apply in_map.
  - destruct Hin as [-> | Hin]; [congruence|].
    f_equal. now apply IH.
Qed.

(** X20. Deleting a session one owns removes exactly the session with
    that id and keeps every other session, in order; from then on the
    messages listing and a second delete of that id answer 404 for every
    user. *)
Theorem delete_own_session on_delete sid u w :
  owns u sid w ->
  unique_session_ids w ->
  exists w',
    delete_chat_session on_delete sid u w = (Ok "Session deleted successfully", w') /\
    chat_sessions (db w')
      = filter (fun s => negb (s_id s =? sid)) (chat_sessions (db w)) /\
    chat_messages (db w') = on_delete sid (chat_messages (db w)) /\
    (forall v isoformat,
       App.get_session_messages isoformat sid v w' = (Raise NOT_FOUND, w')) /\
    (forall v, delete_chat_session on_delete sid v w' = (Raise NOT_FOUND, w')).
Proof.
  intros Hown Hnd.
  destruct (owned_session_found u sid w Hown) as [s0 Hfind].
  destruct Hown as (s & Hin & Hid & Hu).
  unfold delete_chat_session, bind, delete_session. rewrite Hfind. cbn [negb].
  eexists. split; [reflexivity|].
  cbn [db chat_sessions chat_messages].
  rewrite (remove_first_owned sid (u_id u) _ s Hnd Hin Hid Hu).
  split; [reflexivity|]. split; [reflexivity|].
  assert (Hgone : forall v : User,
            find (fun s => (s_id s =? sid) && (s_user_id s =? u_id v))
              (filter (fun s => negb (s_id s =? sid)) (chat_sessions (db w))) = None).
  { intros v.
    match goal with |- ?t = None => destruct t as [x|] eqn:E end; [|reflexivity].
    apply find_some in E as [Hx Hhit]. apply filter_In in Hx as [_ Hneq].
    apply andb_true_iff in Hhit as [H1 _]. rewrite H1 in Hneq. discriminate. }
  split.
  - intros v isoformat. unfold App.get_session_messages, bind, query_owned_session.
    cbn [db chat_sessions]. now rewrite Hgone.
  - intros v. cbn [db chat_sessions]. now rewrite Hgone.
Qed.

Lemma delete_own_session_witness :
  exists w',
    delete_chat_session drop_messages 3 alice shared_world
      = (Ok "Session deleted successfully", w') /\
    chat_sessions (db w')
      = filter (fun s => negb (s_id s =? 3)) (chat_sessions (db shared_world)) /\
    chat_messages (db w') = drop_messages 3 (chat_messages (db shared_world)) /\
    (forall v isoformat,
       App.get_session_messages isoformat 3 v w' = (Raise NOT_FOUND, w')) /\
    (forall v, delete_chat_session drop_messages 3 v w' = (Raise NOT_FOUND, w')).
Proof.
  apply (delete_own_session drop_messages 3 alice shared_world).
  - eexists. split; [left; reflexivity|]. split; reflexivity.
  - unfold unique_session_ids. simpl. repeat constructor; simpl; intuition discriminate.
Defined.

(** X21. Deleting a session one does not own -- someone else's or none at
    all -- answers 404 and changes nothing. *)
Theorem delete_foreign_session on_delete sid u w :
  ~ owns u sid w ->
  delete_chat_session on_delete sid u w = (Raise NOT_FOUND, w).
Proof.
  intros Hno. unfold delete_chat_session, bind, delete_session.
  now rewrite (foreign_session_not_found u sid w Hno).
Qed.

Lemma delete_foreign_session_witness :
  delete_chat_session drop_messages 7 alice shared_world = (Raise NOT_FOUND, shared_world).
Proof.
  apply (delete_foreign_session drop_messages 7 alice shared_world).
  apply not_owns_by_ids. reflexivity.
Defined.

Lemma update_first_unique sid (f : ChatSession -> ChatSession) (l : list ChatSession) :
  NoDup (map s_id l) ->
  update_first (fun s => s_id s =? sid) f l
  = map (fun x => if s_id x =? sid then f x else x) l.
Proof.
  induction l as [|x l IH]; intros Hnd; [reflexivity|].
  simpl in Hnd. apply NoDup_cons_iff in Hnd as [Hx Hnd]. simpl.
  destruct (Z.eqb_spec (s_id x) sid) as [Ex|Nx].
  - f_equal. rewrite <- (map_id l) at 1. apply map_ext_in. intros y Hy.
    destruct (Z.eqb_spec (s_id y) sid) as [Ey|]; [|reflexivity].
    exfalso. apply Hx. rewrite Ex, <- Ey. now apply in_map.
  - f_equal. now apply IH.
Qed.

(** X22. [update_session_title] renames the session with the given id,
    whoever owns it, and stamps it with the clock; every other session and
    every message is left as it was. *)
Theorem rename_session sid new_title w s :
  unique_session_ids w ->
  In s (chat_sessions (db w)) ->
  s_id s = sid ->
  let w' := snd (update_session_title sid new_title w) in
  let renamed := {| s_id := s_id s; s_user_id := s_user_id s; s_title := new_title;
                    s_created_at := s_created_at s; s_updated_at := now w |} in
  In renamed (chat_sessions (db w')) /\
  (forall s', In s' (chat_sessions (db w')) ->
     s' = renamed \/ (s_id s' <> sid /\ In s' (chat_sessions (db w)))) /\
  (forall s', In s' (chat_sessions (db w)) -> s_id s' <> sid ->
     In s' (chat_sessions (db w'))) /\
  chat_messages (db w') = chat_messages (db w).
Proof.
  intros Hnd Hin Hid w' renamed. unfold w', update_session_title.
  destruct (find (fun s0 => s_id s0 =? sid) (chat_sessions (db w))) as [s0|] eqn:Hfind.
  2: { eapply find_none in Hfind; [|exact Hin].
       rewrite Hid, Z.eqb_refl in Hfind. discriminate. }
  cbn [snd db chat_sessions chat_messages].
  rewrite (update_first_unique sid _ _ Hnd).
  assert (Hsame : forall x, In x (chat_sessions (db w)) -> s_id x = sid -> x = s).
  { intros x Hx Ex. unfold unique_session_ids in Hnd.
    clear - Hnd Hin Hx Ex Hid. induction (chat_sessions (db w)) as [|y l IH]; [destruct Hx|].
    simpl in Hnd. apply NoDup_cons_iff in Hnd as [Hy Hnd].
    destruct Hx as [-> | Hx], Hin as [-> | Hin]; auto.
    - exfalso. apply Hy. rewrite Ex, <- Hid. now apply in_map.
    - exfalso. apply Hy. rewrite Hid, <- Ex. now apply in_map. }
  split; [|split; [|split; [|reflexivity]]].
  - apply in_map_iff. exists s. split; [|exact Hin].
    destruct (Z.eqb_spec (s_id s) sid); [reflexivity|contradiction].
  - intros s' Hs'. apply in_map_iff in Hs' as (x & <- & Hx).
    destruct (Z.eqb_spec (s_id x) sid) as [Ex|Nx].
    + left. now rewrite (Hsame x Hx Ex).
    + right. now split.
  - intros s' Hs' Hneq. apply in_map_iff. exists s'. split; [|exact Hs'].
    now destruct (Z.eqb_spec (s_id s') sid).
Qed.

Lemma rename_session_witness :
  let s := {| s_id := 7; s_user_id := 2; s_title := "Shipping";
              s_created_at := 10; s_updated_at := 10 |} in
  let w' := snd (update_session_title 7 "Delivery" shared_world) in
  let renamed := {| s_id := 7; s_user_id := 2; s_title := "Delivery";
                    s_created_at := 10; s_updated_at := 100 |} in
  In renamed (chat_sessions (db w')) /\
  (forall s', In s' (chat_sessions (db w')) ->
     s' = renamed \/ (s_id s' <> 7 /\ In s' (chat_sessions (db shared_world)))) /\
  (forall s', In s' (chat_sessions (db shared_world)) -> s_id s' <> 7 ->
     In s' (chat_sessions (db w'))) /\
  chat_messages (db w') = chat_messages (db shared_world).
Proof.
  apply (rename_session 7 "Delivery" shared_world
           {| s_id := 7; s_user_id := 2; s_title := "Shipping";
              s_created_at := 10; s_updated_at := 10 |}).
  - unfold unique_session_ids. simpl. repeat constructor; simpl; intuition discriminate.
  - simpl. auto.
  - reflexivity.
Defined.

(* ===================================================================== *)
(** ** The window of recent messages *)
(* ===================================================================== *)

(** X23. For any limit, [get_recent_context] renders at most [limit]
    messages, all taken from the session asked for, oldest first; and the
    messages of the session it leaves out are none of them newer than any
    it keeps. *)
Theorem recent_context_window sid limit w :
  0 <= limit ->
  let kept := recent_messages sid limit w in
  get_recent_context sid limit w = (Ok (join (nl ++ nl) (map render kept)), w) /\
  Z.of_nat (List.length kept) <= limit /\
  Forall (fun m => In m (chat_messages (db w)) /\ m_session_id m = sid) kept /\
  ascending m_timestamp kept /\
  (forall m m',
     In m kept ->
     In m' (chat_messages (db w)) -> m_session_id m' = sid -> ~ In m' kept ->
     m_timestamp m' <= m_timestamp m).
Proof.
  intros Hlimit kept.
  set (session := filter (fun m => m_session_id m =? sid) (chat_messages (db w))).
  set (newest_first := order_by_timestamp_desc session).
  assert (Hkept : kept = rev (firstn (Z.to_nat limit) newest_first)) by reflexivity.
  assert (Hperm : Permutation session newest_first) by apply sort_by_perm.
  assert (Hasc : ascending (fun m => - m_timestamp m) newest_first)
    by apply sort_by_ascending.
  split; [reflexivity|]. split; [|split; [|split]].
  - rewrite Hkept, length_rev.
    pose proof (firstn_le_length (Z.to_nat limit) newest_first). lia.
  - apply Forall_forall. intros m Hm. rewrite Hkept in Hm.
    apply in_rev, In_firstn in Hm.
    eapply Permutation_in in Hm; [|symmetry; exact Hperm].
    apply filter_In in Hm as [Hin Hs]. split; [exact Hin | now apply Z.eqb_eq].
  - rewrite Hkept. now apply ascending_rev, ascending_firstn.
  - intros m m' Hm Hin' Hsid' Hout. rewrite Hkept in Hm, Hout.
    rewrite <- in_rev in Hm, Hout.
    assert (Hm' : In m' newest_first).
    { eapply Permutation_in; [exact Hperm|].
      apply filter_In. split; [exact Hin' | now apply Z.eqb_eq]. }
    rewrite <- (firstn_skipn (Z.to_nat limit) newest_first) in Hm', Hasc.
    apply in_app_or in Hm' as [Hm' | Hm']; [contradiction|].
    pose proof (ascending_app_le (fun m => - m_timestamp m) _ _ m m' Hasc Hm Hm').
    simpl in H. lia.
Qed.

Lemma recent_context_window_witness :
  let kept := recent_messages 7 1 shared_world in
  get_recent_context 7 1 shared_world = (Ok (join (nl ++ nl) (map render kept)), shared_world) /\
  Z.of_nat (List.length kept) <= 1 /\
  Forall (fun m => In m (chat_messages (db shared_world)) /\ m_session_id m = 7) kept /\
  ascending m_timestamp kept /\
  (forall m m',
     In m kept ->
     In m' (chat_messages (db shared_world)) -> m_session_id m' = 7 -> ~ In m' kept ->
     m_timestamp m' <= m_timestamp m).
Proof.
  apply (recent_context_window 7 1 shared_world). lia.
Defined.
